(** * campaign-critic: the suggestion pipeline of [6_building_suggestions_graph]

    A shallow embedding of the notebook that compares the weighted meta
    features of one Kickstarter campaign with those of the average top
    project, and of the training notebook cell that fixes the column layout
    of the design matrix.

    Numbers.  The notebook computes on NumPy [float64] values.  In the
    main development they are embedded as exact rationals extended with
    [+inf], [-inf] and [NaN] (pandas' missing value).  Operations on the
    special values follow IEEE 754 ([x / 0] is an infinity, [0 / 0] and
    [inf - inf] and [0 * inf] are [NaN], every comparison with [NaN] is
    false); rounding, overflow, underflow and the sign of zero are not
    represented.  Where rounding decides a statement (the scaling of the
    weighted scores), cell 11 is embedded a second time, in module
    [Binary64], over IEEE 754 binary64 values with correctly rounded
    operations.

    Library calls (pandas, NumPy, matplotlib) are embedded with their
    documented behaviour: selecting a list of labels that are not all in
    the index raises [KeyError], [Series.quantile] ignores missing values
    and interpolates linearly, [DataFrame.mean] skips missing values. *)

From Stdlib Require Import List String Bool Arith ZArith Lia.
From Stdlib Require Import QArith Qcanon Qround.
From Stdlib Require Import SpecFloat.
Import ListNotations.

Open Scope string_scope.
Open Scope list_scope.

(** ** Errors raised by the library calls of the notebook *)

Inductive exn : Type :=
| KeyError
| ValueError
| InvalidIndexError.

Inductive result (A : Type) : Type :=
| Ok (a : A)
| Err (e : exn).

Arguments Ok {A} a.
Arguments Err {A} e.

Definition bind {A B : Type} (m : result A) (k : A -> result B) : result B :=
  match m with
  | Ok a => k a
  | Err e => Err e
  end.

Definition rmap {A B : Type} (f : A -> B) (m : result A) : result B :=
  bind m (fun a => Ok (f a)).

Notation "x <- m ;; k" := (bind m (fun x => k))
  (at level 61, m at next level, right associativity).

(** ** float64 values *)

Module Float.

Inductive float64 : Type :=
| Fin (q : Qc)
| PInf
| NInf
| NaN.

Definition zero : float64 := Fin 0%Qc.
Definition one : float64 := Fin 1%Qc.

Definition of_Z (z : Z) : float64 := Fin (Q2Qc (inject_Z z)).
Definition of_nat (n : nat) : float64 := of_Z (Z.of_nat n).

Definition isnull (x : float64) : bool :=
  match x with NaN => true | _ => false end.

Definition notnull (x : float64) : bool := negb (isnull x).

Definition isfinite (x : float64) : bool :=
  match x with Fin _ => true | _ => false end.

(** The infinity (or NaN) that a product or quotient with an infinite or
    zero operand takes, from the sign of the finite operand. *)
Definition inf_signed (c : comparison) : float64 :=
  match c with
  | Gt => PInf
  | Lt => NInf
  | Eq => NaN
  end.

Definition sgn (q : Qc) : comparison := (q ?= 0)%Qc.

Definition neg (x : float64) : float64 :=
  match x with
  | Fin q => Fin (- q)%Qc
  | PInf => NInf
  | NInf => PInf
  | NaN => NaN
  end.

Definition add (x y : float64) : float64 :=
  match x, y with
  | NaN, _ | _, NaN => NaN
  | Fin a, Fin b => Fin (a + b)%Qc
  | PInf, NInf | NInf, PInf => NaN
  | PInf, _ | _, PInf => PInf
  | NInf, _ | _, NInf => NInf
  end.

Definition sub (x y : float64) : float64 := add x (neg y).

Definition mul (x y : float64) : float64 :=
  match x, y with
  | NaN, _ | _, NaN => NaN
  | Fin a, Fin b => Fin (a * b)%Qc
  | Fin a, PInf | PInf, Fin a => inf_signed (sgn a)
  | Fin a, NInf | NInf, Fin a => inf_signed (CompOpp (sgn a))
  | PInf, PInf | NInf, NInf => PInf
  | PInf, NInf | NInf, PInf => NInf
  end.

(** True division.  A zero divisor stands for [+0.0]. *)
Definition div (x y : float64) : float64 :=
  match x, y with
  | NaN, _ | _, NaN => NaN
  | Fin a, Fin b =>
      if Qc_eq_dec b 0 then inf_signed (sgn a) else Fin (a / b)%Qc
  | Fin _, PInf | Fin _, NInf => zero
  | PInf, Fin b =>
      if Qc_eq_dec b 0 then PInf else inf_signed (sgn b)
  | NInf, Fin b =>
      if Qc_eq_dec b 0 then NInf else inf_signed (CompOpp (sgn b))
  | _, _ => NaN
  end.

(** [leb x y] is the comparison [x <= y]; false when either side is NaN. *)
Definition leb (x y : float64) : bool :=
  match x, y with
  | NaN, _ | _, NaN => false
  | NInf, _ => true
  | _, PInf => true
  | Fin a, Fin b => match (a ?= b)%Qc with Gt => false | _ => true end
  | _, _ => false
  end.

(** [geb x y] is the comparison [x >= y]. *)
Definition geb (x y : float64) : bool := leb y x.

(** [eqb x y] is the comparison [x == y]; NaN is equal to nothing. *)
Definition eqb (x y : float64) : bool :=
  match x, y with
  | Fin a, Fin b => if Qc_eq_dec a b then true else false
  | PInf, PInf | NInf, NInf => true
  | _, _ => false
  end.

Definition sum (l : list float64) : float64 := fold_left add l zero.

End Float.

Import Float.

Declare Scope float_scope.
Delimit Scope float_scope with float.
Bind Scope float_scope with float64.
Infix "+" := Float.add : float_scope.
Infix "-" := Float.sub : float_scope.
Infix "*" := Float.mul : float_scope.
Infix "/" := Float.div : float_scope.
Infix ">=?" := Float.geb (at level 70) : float_scope.
Infix "==?" := Float.eqb (at level 70) : float_scope.

(** A float64 literal [n / d]. *)
Definition flt (n : Z) (d : positive) : float64 := Fin (Q2Qc (n # d)).

(** ** The fixed names of the notebook *)

(** List of meta features. *)
Definition features : list string :=
  ["num_sents"; "num_words"; "num_all_caps"; "percent_all_caps";
   "num_exclms"; "percent_exclms"; "num_apple_words";
   "percent_apple_words"; "avg_words_per_sent"; "num_paragraphs";
   "avg_sents_per_paragraph"; "avg_words_per_paragraph";
   "num_images"; "num_videos"; "num_youtubes"; "num_gifs";
   "num_hyperlinks"; "num_bolded"; "percent_bolded"].

(** List of meta features that were most predictive of funded projects. *)
Definition predictive_features : list string :=
  ["num_hyperlinks"; "num_images"; "num_apple_words";
   "num_exclms"; "percent_bolded"; "num_words"].

(** The y-axis labels of the bar plot. *)
Definition labels : list string :=
  ["hyperlinks"; "images"; "innovation words"; "exclamation marks";
   "bolded text"; "length of description"].

(** ** pandas Series: labelled values, in index order *)

Definition Series : Type := list (string * float64).

Definition index (s : Series) : list string := map fst s.
Definition values (s : Series) : list float64 := map snd s.

(** [pd.Series(data, index=idx)]: the lengths must agree. *)
Definition pd_Series (data : list float64) (idx : list string) : result Series :=
  if Nat.eqb (List.length data) (List.length idx)
  then Ok (combine idx data)
  else Err ValueError.

(** The entries of [s] carrying label [k]. *)
Definition loc (s : Series) (k : string) : Series :=
  filter (fun p => String.eqb (fst p) k) s.

(** [s[keys]] for a list of labels: the entries of every label, in
    the order of [keys]; a label that is not in the index raises KeyError. *)
Fixpoint getitem (s : Series) (keys : list string) : result Series :=
  match keys with
  | [] => Ok []
  | k :: ks =>
      match loc s k with
      | [] => Err KeyError
      | hit => rest <- getitem s ks ;; Ok (hit ++ rest)
      end
  end.

(** The value stored under a label of a Series, when there is one. *)
Fixpoint get (s : Series) (k : string) : option float64 :=
  match s with
  | [] => None
  | (k', v) :: s' => if String.eqb k' k then Some v else get s' k
  end.

(** [np.multiply(a, b)] on two Series: the element-wise product by
    position, carrying the index of [a], as NumPy computes it on the
    values; operands of different length do not broadcast.  (A pandas that
    first aligns the two Series on their labels computes the same product
    when the two indexes are equal, which they are for two selections by
    one list of labels out of vectors with unique labels.) *)
Fixpoint multiply_aux (a b : Series) : Series :=
  match a, b with
  | (k, x) :: a', (_, y) :: b' => (k, (x * y)%float) :: multiply_aux a' b'
  | _, _ => []
  end.

Definition np_multiply (a b : Series) : result Series :=
  if Nat.eqb (List.length a) (List.length b)
  then Ok (multiply_aux a b)
  else Err ValueError.

(** ** The training set [section1_df_full] *)

(** One project of the table: the funding columns and the meta feature
    columns; a column with no value in the row is missing (NaN). *)
Record Row : Type := mkRow {
  pledged : float64;
  goal : float64;
  meta : list (string * float64)
}.

Definition cell (r : Row) (column : string) : float64 :=
  match get (meta r) column with
  | Some v => v
  | None => NaN
  end.

(** A frame over the columns [features]: one list of cells per row. *)
Definition Frame : Type := list (list float64).

(** ** NumPy and pandas reductions *)

Fixpoint insert_sorted (x : float64) (l : list float64) : list float64 :=
  match l with
  | [] => [x]
  | y :: l' => if Float.leb x y then x :: l else y :: insert_sorted x l'
  end.

Definition sort (l : list float64) : list float64 :=
  fold_right insert_sorted [] l.

(** [arr[i]] for a Python index: a negative index counts from the end. *)
Definition item (arr : list float64) (i : Z) : float64 :=
  nth (Z.to_nat (if (i <? 0)%Z then Z.of_nat (List.length arr) + i else i))
    arr NaN.

(** NumPy's [_lerp(a, b, t)]: [a + (b - a) * t], and
    [b - (b - a) * (1 - t)] where [t >= 0.5]. *)
Definition lerp (a b : float64) (t : Qc) : float64 :=
  let diff_b_a := (b - a)%float in
  match (t ?= Q2Qc (1 # 2))%Qc with
  | Lt => (a + diff_b_a * Fin t)%float
  | _ => (b - diff_b_a * Fin (1 - t)%Qc)%float
  end.

(** [np.percentile(a, 100 q)] with linear interpolation on a non-empty
    array: the two order statistics around the virtual index [(n - 1) q],
    interpolated by [lerp]; a virtual index that reaches the last index
    takes the last value on both sides.  An array that holds a NaN gives
    NaN. *)
Definition np_percentile (a : list float64) (q : Qc) : float64 :=
  let arr := sort a in
  let values_count := Z.of_nat (List.length arr) in
  let virtual_indexes := (Q2Qc (inject_Z (values_count - 1)) * q)%Qc in
  let indexes_above_bounds :=
    match (virtual_indexes ?= Q2Qc (inject_Z (values_count - 1)))%Qc with
    | Lt => false
    | _ => true
    end in
  let previous_indexes :=
    if indexes_above_bounds then (-1)%Z else Qfloor virtual_indexes in
  let next_indexes :=
    if indexes_above_bounds then (-1)%Z else (Qfloor virtual_indexes + 1)%Z in
  let gamma := (virtual_indexes - Q2Qc (inject_Z previous_indexes))%Qc in
  if existsb isnull a then NaN
  else lerp (item arr previous_indexes) (item arr next_indexes) gamma.

Definition check_percentile (q : Qc) : bool :=
  match (0 ?= q)%Qc, (q ?= 1)%Qc with
  | Gt, _ | _, Gt => false
  | _, _ => true
  end.

(** [s.quantile(q)]: [q] must lie in [0, 1]; missing values are left
    out; the quantile of no value is NaN. *)
Definition quantile (s : list float64) (q : Qc) : result float64 :=
  if check_percentile q then
    match filter notnull s with
    | [] => Ok NaN
    | vals => Ok (np_percentile vals q)
    end
  else Err ValueError.

(** The mean of a column, missing values skipped; NaN when nothing is left. *)
Definition nanmean (column : list float64) : float64 :=
  match filter notnull column with
  | [] => NaN
  | vals => (Float.sum vals / of_nat (List.length vals))%float
  end.

Definition column_at (j : nat) (data : Frame) : list float64 :=
  map (fun row => nth j row NaN) data.

(** [df.mean()]: the mean of every column, labelled by the column names. *)
Definition DataFrame_mean (columns : list string) (data : Frame) : Series :=
  combine columns
    (map (fun j => nanmean (column_at j data)) (seq 0 (List.length columns))).

(** [df.isnull().all(axis=1)] on one row. *)
Definition isnull_all (row : list float64) : bool := forallb isnull row.

Definition fillna (fill : float64) (x : float64) : float64 :=
  if isnull x then fill else x.

(** ** Cell 5 and 6: the average top project *)

Section Reference.

(** The quantile of the cut ([0.95] in the notebook). *)
Variable q : Qc.
Variable section1_df_full : list Row.

Definition percent_funded_of (r : Row) : float64 :=
  (pledged r / goal r)%float.

(** Define a variable for defining top performing projects. *)
Definition percent_funded : list float64 :=
  map percent_funded_of section1_df_full.

(** Select projects that are within the top quantile. *)
Definition quantile_limit : result float64 :=
  quantile percent_funded q.

Definition top_projects : result (list Row) :=
  limit <- quantile_limit ;;
  Ok (filter (fun r => (percent_funded_of r >=? limit)%float)
        section1_df_full).

(** Select meta features for top projects. *)
Definition X : result Frame :=
  top <- top_projects ;;
  Ok (map (fun r => map (cell r) features) top).

(** Remove all rows with no data. *)
Definition X_nonnull : result Frame :=
  x <- X ;;
  Ok (filter (fun row => negb (isnull_all row)) x).

(** Fill remaining missing values with zero. *)
Definition X_cleaned : result Frame :=
  x <- X_nonnull ;;
  Ok (map (map (fillna zero)) x).

(** Compute the average meta feature of the top projects. *)
Definition avg_top_projects : result Series :=
  x <- X_cleaned ;;
  Ok (DataFrame_mean features x).

End Reference.

(** ** Cell 10: the meta feature ranks *)

Definition ncols (m : Frame) : nat :=
  match m with
  | [] => 0
  | row :: _ => List.length row
  end.

(** [m.T] *)
Definition transpose (m : Frame) : Frame :=
  map (fun j => column_at j m) (seq 0 (ncols m)).

(** [m.ravel()] *)
Definition ravel (m : Frame) : list float64 := List.concat m.

(** Compute meta feature ranks: [clf.coef_.T.ravel()[:len(features)]]
    indexed by [features]. *)
Definition feature_ranks (coef_ : Frame) : result Series :=
  pd_Series (firstn (List.length features) (ravel (transpose coef_))) features.

(** ** Cell 11: the weighted scores *)

(** Compute the weighted score of the meta features of a project. *)
Definition user_project_score
    (feature_vector_std feature_ranks : Series)
    (predictive_features : list string) : result Series :=
  a <- getitem feature_vector_std predictive_features ;;
  b <- getitem feature_ranks predictive_features ;;
  np_multiply a b.

(** Compute the weighted score of the meta features of the average top
    project. *)
Definition top_project_score
    (top_project_std feature_ranks : Series)
    (predictive_features : list string) : result Series :=
  a <- getitem top_project_std predictive_features ;;
  b <- getitem feature_ranks predictive_features ;;
  np_multiply a b.

(** ** Cell 12 and 13: the table behind the bar plot *)

(** [idx.is_unique] *)
Fixpoint is_unique (idx : list string) : bool :=
  match idx with
  | [] => true
  | k :: rest => negb (existsb (String.eqb k) rest) && is_unique rest
  end.

(** The union of two indexes, in order of appearance. *)
Definition union_index (a b : list string) : list string :=
  a ++ filter (fun k => negb (existsb (String.eqb k) a)) b.

Definition reindex (s : Series) (k : string) : float64 :=
  match get s k with
  | Some v => v
  | None => NaN
  end.

(** Combine the weighted scores into a single DataFrame:
    [pd.DataFrame([your, top], index=['Your project', 'Top projects'])
       .T.reset_index()],
    one row [(index, Your project, Top projects)] per label.  The two
    Series are aligned on the union of their labels, which pandas refuses
    for an index with a repeated label. *)
Definition messy (your top : Series) : result (list (string * float64 * float64)) :=
  if is_unique (index your) && is_unique (index top)
  then Ok (map (fun k => (k, reindex your k, reindex top k))
             (union_index (index your) (index top)))
  else Err InvalidIndexError.

(** Transform the combined data into tidy format: [pd.melt] with
    [id_vars='index'], one row [(index, variable, value)] per score, the
    rows of 'Your project' first. *)
Definition tidy (m : list (string * float64 * float64))
  : list (string * string * float64) :=
  map (fun r => (fst (fst r), "Your project", snd (fst r))) m
  ++ map (fun r => (fst (fst r), "Top projects", snd r)) m.

(** [plt.yticks(ticks, labels)]: one label per tick location. *)
Definition plt_yticks (ticks : list nat) (labels : list string)
  : result (list (nat * string)) :=
  if Nat.eqb (List.length ticks) (List.length labels)
  then Ok (combine ticks labels)
  else Err ValueError.

Fixpoint tick_label (ticks : list (nat * string)) (position : nat) : string :=
  match ticks with
  | [] => ""
  | (p, l) :: rest => if Nat.eqb p position then l else tick_label rest position
  end.

Fixpoint enumerate_from {A : Type} (i : nat) (l : list A) : list (nat * A) :=
  match l with
  | [] => []
  | x :: l' => (i, x) :: enumerate_from (S i) l'
  end.

(** The labels of a column in their order of first appearance: the order
    in which a plot lays out the levels of a text column. *)
Fixpoint order_of_appearance (l : list string) : list string :=
  match l with
  | [] => []
  | k :: rest =>
      k :: filter (fun x => negb (String.eqb x k)) (order_of_appearance rest)
  end.

(** The bar of one label and one variable: the mean of the values of the
    rows of the tidy table that carry both. *)
Definition bar (t : list (string * string * float64))
    (category hue : string) : float64 :=
  nanmean
    (map snd
       (filter (fun row => String.eqb (fst (fst row)) category
                           && String.eqb (snd (fst row)) hue) t)).

(** Draw a grouped bar plot of the weighted scores, and re-label the
    y-axis.  The rows of the plot, top to bottom: the i-th label of the
    'index' column sits at position i with its two bars, and is shown under
    the tick label of that position,
    [plt.yticks(np.arange(len(predictive_features)), labels)]. *)
Definition assemble (your top : Series) (predictive_features : list string)
  : result (list (string * float64 * float64)) :=
  m <- messy your top ;;
  let t := tidy m in
  ticks <- plt_yticks (seq 0 (List.length predictive_features)) labels ;;
  Ok (map (fun ic => (tick_label ticks (fst ic),
                      bar t (snd ic) "Your project",
                      bar t (snd ic) "Top projects"))
        (enumerate_from 0
           (order_of_appearance (map (fun row => fst (fst row)) t)))).

(** The pairing of names and labels that the plot of the notebook shows. *)
Definition label_table : list (string * string) :=
  combine predictive_features labels.

Definition registered (name : string) : bool :=
  existsb (fun p => String.eqb (fst p) name) label_table.

(** ** Training notebook, cell 9: the layout of the design matrix *)

(** [sparse.hstack([a, b])]: the rows of [a] followed, row by row, by
    those of [b]. *)
Definition hstack (a b : Frame) : result Frame :=
  if Nat.eqb (List.length a) (List.length b)
  then Ok (map (fun ab => fst ab ++ snd ab) (combine a b))
  else Err ValueError.

(** Concatenate the meta features with the n-grams. *)
Definition X_full (X_std_sparse X_ngrams : Frame) : result Frame :=
  hstack X_std_sparse X_ngrams.

Definition dot (x w : list float64) : float64 :=
  Float.sum (map (fun xw => (fst xw * snd xw)%float) (combine x w)).

(** The score that a fitted linear classifier gives one row of the
    design matrix: [x . coef_[0] + intercept_]. *)
Definition decision_function (coef_ : Frame) (intercept_ : float64)
    (x : list float64) : float64 :=
  (dot x (nth 0 coef_ []) + intercept_)%float.

(** ** The meta features of one project *)

Module FeatureExtractor.

(** Modelled from the spec: [feature_engineering.process_project], whose
    module is not among the sources.  The counts that the normalized text
    and the HTML structure of a campaign section give. *)
Record Counts : Type := mkCounts {
  sentences : nat;
  words : nat;
  all_caps : nat;
  exclamation_marks : nat;
  innovation_words : nat;
  paragraphs : nat;
  images : nat;
  videos : nat;
  youtubes : nat;
  gifs : nat;
  hyperlinks : nat;
  bolded : nat;
  bolded_chars : nat;
  total_chars : nat
}.

(** Modelled from the spec: a ratio or average of [feature_engineering];
    a zero denominator resolves to 0. *)
Definition ratio (numerator denominator : nat) : float64 :=
  if Nat.eqb denominator 0 then zero
  else (of_nat numerator / of_nat denominator)%float.

(** Modelled from the spec: the meta features returned by
    [feature_engineering.process_project], in the order of [features]. *)
Definition meta_features (c : Counts) : list float64 :=
  [ of_nat (sentences c);
    of_nat (words c);
    of_nat (all_caps c);
    ratio (all_caps c) (words c);
    of_nat (exclamation_marks c);
    ratio (exclamation_marks c) (sentences c);
    of_nat (innovation_words c);
    ratio (innovation_words c) (words c);
    ratio (words c) (sentences c);
    of_nat (paragraphs c);
    ratio (sentences c) (paragraphs c);
    ratio (words c) (paragraphs c);
    of_nat (images c);
    of_nat (videos c);
    of_nat (youtubes c);
    of_nat (gifs c);
    of_nat (hyperlinks c);
    of_nat (bolded c);
    ratio (bolded_chars c) (total_chars c) ].

(** Modelled from the spec: [FeatureExtractor.extract], the feature vector
    keyed by the fixed names. *)
Definition extract (c : Counts) : Series :=
  combine features (meta_features c).

End FeatureExtractor.

(** ** Notions used in the statements *)

(** [k] is a label of the index of [s]. *)
Definition has_label (s : Series) (k : string) : bool :=
  existsb (String.eqb k) (index s).

(** The product of two signs. *)
Definition comp_mul (a b : comparison) : comparison :=
  match a, b with
  | Eq, _ | _, Eq => Eq
  | Gt, Gt | Lt, Lt => Gt
  | Gt, Lt | Lt, Gt => Lt
  end.

(** A value that is a number, and not below zero. *)
Definition finite_nonneg (x : float64) : Prop :=
  exists a : Qc, x = Fin a /\ (0 <= a)%Qc.

(** The plain arithmetic mean: the sum over the count. *)
Definition arithmetic_mean (l : list float64) : float64 :=
  (Float.sum l / of_nat (List.length l))%float.

(** Every one of the meta features of a row is missing. *)
Definition all_missing (r : Row) : bool :=
  forallb (fun f => isnull (cell r f)) features.

(** The reference vector as the specification words it, over the rows
    [selected] of the top cohort: drop the rows with every meta feature
    missing, read a missing value of the rows that remain as 0, and take
    the arithmetic mean of every feature. *)
Definition spec_reference (selected : list Row) : Series :=
  let remaining := filter (fun r => negb (all_missing r)) selected in
  map (fun f =>
         (f, arithmetic_mean (map (fun r => fillna zero (cell r f)) remaining)))
      features.

(** The vector with every meta feature missing. *)
Definition all_nan : Series := map (fun f => (f, NaN)) features.


(** ** Cohorts and vectors used as examples *)

Module Scenario.

Definition half : Qc := Q2Qc (1 # 2).

(** The quantile of the notebook. *)
Definition q95 : Qc := Q2Qc (95 # 100).

Definition zeros : list (string * float64) :=
  map (fun f => (f, zero)) features.

(** A project with every meta feature 0 but [num_images]. *)
Definition project (pledged goal num_images : Z) : Row :=
  mkRow (of_Z pledged) (of_Z goal)
    (("num_images", of_Z num_images) :: zeros).

(** End-to-end scenario 1 of the specification. *)
Definition cohort1 : list Row :=
  [project 200 100 0; project 50 100 2].

(** A cohort whose median ratio is the ratio of one of its rows. *)
Definition cohort_tie : list Row :=
  [project 50 100 1; project 100 100 3; project 200 100 5].

(** A cohort with one project whose goal is 0. *)
Definition cohort_zero_goal : list Row :=
  [project 200 100 0; project 50 100 2; project 300 0 5; project 100 100 1].

(** A project with a goal but with no meta feature at all. *)
Definition cohort_no_data : list Row :=
  [mkRow (of_Z 200) (of_Z 100) []].

Definition demo_std : Series :=
  combine features (map of_Z [1; 2; 3; 4; 5; 6; 7; 8; 9; 10;
                              11; 12; 13; 14; 15; 16; 17; 18; 19]%Z).

Definition demo_top_std : Series :=
  combine features (map of_Z [2; 2; 2; 2; 2; 2; 2; 2; 2; 2;
                              2; 2; 2; 2; 2; 2; 2; 2; 2]%Z).

Definition demo_ranks : Series :=
  combine features (map of_Z [1; -1; 1; -1; 1; -1; 1; -1; 1; -1;
                              1; -1; 1; -1; 1; -1; 1; -1; 1]%Z).

(** A coefficient row over 19 meta features and 2 n-grams. *)
Definition demo_coef : list float64 :=
  values demo_ranks ++ [of_Z 7; of_Z (-7)].

Definition demo_ngrams : list float64 := [of_Z 1; of_Z 0].

(** A campaign section with no text at all. *)
Definition no_text : FeatureExtractor.Counts :=
  FeatureExtractor.mkCounts 0 0 0 0 0 0 0 0 0 0 0 0 0 0.

(** The predictive features with [num_words] replaced by a feature that
    has no label in the plot. *)
Definition subset_unlabelled : list string :=
  ["num_hyperlinks"; "num_images"; "num_apple_words";
   "num_exclms"; "percent_bolded"; "num_sents"].

End Scenario.

(** ** The whole of cells 11 to 13 *)

Definition suggestions (feature_vector_std top_project_std ranks : Series)
    (predictive_features : list string)
  : result (list (string * float64 * float64)) :=
  your <- user_project_score feature_vector_std ranks predictive_features ;;
  top <- top_project_score top_project_std ranks predictive_features ;;
  assemble your top predictive_features.

(** ** Cell 2, 6 and 9: the fitted scaler *)

(** The parameters of the scaler loaded from [trained_scaler.pkl]. *)
Record StandardScaler : Type := mkScaler {
  mean_ : list float64;
  scale_ : list float64
}.

Definition isinf (x : float64) : bool :=
  match x with PInf | NInf => true | _ => false end.

Definition standardize (x m s : float64) : float64 := ((x - m) / s)%float.

Fixpoint standardize_row (row means scales : list float64) : list float64 :=
  match row, means, scales with
  | x :: row', m :: means', s :: scales' =>
      standardize x m s :: standardize_row row' means' scales'
  | _, _, _ => []
  end.

(** [scaler.transform(X)]: every row is centred on [mean_] and divided by
    [scale_].  An infinite value is refused, and so is a row whose length
    is not the number of fitted features; a missing value is let through
    and stays missing. *)
Definition scaler_transform (scaler : StandardScaler) (X : Frame)
  : result Frame :=
  if existsb (existsb isinf) X then Err ValueError
  else if forallb (fun row => Nat.eqb (List.length row)
                                (List.length (mean_ scaler))) X
          && Nat.eqb (List.length (scale_ scaler))
               (List.length (mean_ scaler))
  then Ok (map (fun row => standardize_row row (mean_ scaler) (scale_ scaler)) X)
  else Err ValueError.

(** Standardize the meta features for the average top project. *)
Definition top_project_std (scaler : StandardScaler) (q : Qc)
    (section1_df_full : list Row) : result Series :=
  avg <- avg_top_projects q section1_df_full ;;
  z <- scaler_transform scaler [values avg] ;;
  pd_Series (ravel z) features.

(** Standardize the feature vector of the project. *)
Definition feature_vector_std (scaler : StandardScaler)
    (meta_features : list float64) : result Series :=
  z <- scaler_transform scaler [meta_features] ;;
  pd_Series (ravel z) features.

(** ** Cells 6 to 13 in sequence *)

Definition building_suggestions_graph (scaler : StandardScaler)
    (coef_ : Frame) (q : Qc) (section1_df_full : list Row)
    (meta_features : list float64)
  : result (list (string * float64 * float64)) :=
  top_std <- top_project_std scaler q section1_df_full ;;
  vector_std <- feature_vector_std scaler meta_features ;;
  ranks <- feature_ranks coef_ ;;
  suggestions vector_std top_std ranks predictive_features.

(** ** Training notebook: the training set and its target *)

Fixpoint traverse {A B : Type} (f : A -> result B) (l : list A)
  : result (list B) :=
  match l with
  | [] => Ok []
  | a :: l' => b <- f a ;; rest <- traverse f l' ;; Ok (b :: rest)
  end.

Module Training.

(** A row of the training table: the columns of a project and its
    'funded' column. *)
Record Labelled : Type := mkLabelled {
  project : Row;
  funded : bool
}.

(** Select meta features from the dataset.  The table of a SQL query is
    indexed by position; every row carries its index label. *)
Definition X (section1_df_full : list Labelled) : list (nat * list float64) :=
  enumerate_from 0
    (map (fun p => map (cell (project p)) features) section1_df_full).

(** Remove all rows with no data. *)
Definition X_nonnull (section1_df_full : list Labelled)
  : list (nat * list float64) :=
  filter (fun ir => negb (isnull_all (snd ir))) (X section1_df_full).

(** Fill remaining missing values with zero. *)
Definition X_cleaned (section1_df_full : list Labelled)
  : list (nat * list float64) :=
  map (fun ir => (fst ir, map (fillna zero) (snd ir)))
    (X_nonnull section1_df_full).

(** [df.loc[labels, 'funded']] on a table indexed by position. *)
Definition loc_funded (section1_df_full : list Labelled) (labels : list nat)
  : result (list bool) :=
  traverse (fun i => match nth_error section1_df_full i with
                     | Some p => Ok (funded p)
                     | None => Err KeyError
                     end) labels.

(** Prepare the classification target variable. *)
Definition y (section1_df_full : list Labelled) : result (list bool) :=
  loc_funded section1_df_full (map fst (X_cleaned section1_df_full)).

(** [np.unique] of Booleans: the distinct values, False before True. *)
Definition np_unique (values : list bool) : list bool :=
  (if existsb negb values then [false] else [])
  ++ (if existsb (fun b => b) values then [true] else []).

Fixpoint index_of (b : bool) (classes : list bool) : option nat :=
  match classes with
  | [] => None
  | c :: rest =>
      if Bool.eqb c b then Some 0%nat
      else match index_of b rest with
           | Some i => Some (S i)
           | None => None
           end
  end.

(** [le.transform(values)]: the position of every value among the
    classes; a value that is no class is refused. *)
Definition transform (classes_ : list bool) (values : list bool)
  : result (list nat) :=
  traverse (fun b => match index_of b classes_ with
                     | Some i => Ok i
                     | None => Err ValueError
                     end) values.

(** Encode the class labels in the target variable:
    [le.fit_transform(y.values.ravel())]. *)
Definition y_enc (y : list bool) : result (list nat) :=
  transform (np_unique y) y.

(** The outcome of a division of Python numbers. *)
Inductive quotient : Type :=
| Value (z : Z)
| ZeroDivisionError.

(** Set the recommended number of iterations for stochastic gradient
    descent: [np.ceil(10 ** 6 / len(X_std))]. *)
Definition SGD_iterations (len_X_std : nat) : quotient :=
  match len_X_std with
  | O => ZeroDivisionError
  | S _ => Value (Qceiling (inject_Z (10 ^ 6) / inject_Z (Z.of_nat len_X_std)))
  end.

End Training.

(** ** Cell 11 on IEEE 754 binary64 values *)

Module Binary64.

(** A NumPy [float64] as the machine has it: an IEEE 754 binary64 value,
    with 53 bits of precision and exponents below 1024. *)
Definition binary64 : Type := spec_float.

Definition prec : Z := 53%Z.
Definition emax : Z := 1024%Z.

Definition nan : binary64 := S754_nan.

(** The product and the quotient of two values, rounded to the nearest
    binary64 value, ties to even. *)
Definition mul (x y : binary64) : binary64 := SFmul prec emax x y.
Definition div (x y : binary64) : binary64 := SFdiv prec emax x y.

(** The float64 of an integer. *)
Definition of_Z (z : Z) : binary64 := binary_normalize prec emax z 0%Z false.

Definition Series : Type := list (string * binary64).

Definition index (s : Series) : list string := map fst s.

(** The entries of [s] carrying label [k]. *)
Definition loc (s : Series) (k : string) : Series :=
  filter (fun p => String.eqb (fst p) k) s.

(** [s[keys]] for a list of labels: the entries of every label, in
    the order of [keys]; a label that is not in the index raises KeyError. *)
Fixpoint getitem (s : Series) (keys : list string) : result Series :=
  match keys with
  | [] => Ok []
  | k :: ks =>
      match loc s k with
      | [] => Err KeyError
      | hit => rest <- getitem s ks ;; Ok (hit ++ rest)
      end
  end.

(** The value stored under a label of a Series, when there is one. *)
Fixpoint get (s : Series) (k : string) : option binary64 :=
  match s with
  | [] => None
  | (k', v) :: s' => if String.eqb k' k then Some v else get s' k
  end.

(** [np.multiply(a, b)] on two Series: the element-wise product by
    position, carrying the index of [a]; operands of different length do
    not broadcast. *)
Fixpoint multiply_aux (a b : Series) : Series :=
  match a, b with
  | (k, x) :: a', (_, y) :: b' => (k, mul x y) :: multiply_aux a' b'
  | _, _ => []
  end.

Definition np_multiply (a b : Series) : result Series :=
  if Nat.eqb (List.length a) (List.length b)
  then Ok (multiply_aux a b)
  else Err ValueError.

(** Compute the weighted score of the meta features of a project. *)
Definition user_project_score
    (feature_vector_std feature_ranks : Series)
    (predictive_features : list string) : result Series :=
  a <- getitem feature_vector_std predictive_features ;;
  b <- getitem feature_ranks predictive_features ;;
  np_multiply a b.

(** [k] is a label of the index of [s]. *)
Definition has_label (s : Series) (k : string) : bool :=
  existsb (String.eqb k) (index s).

(** The value of [s] under [k], missing when [k] is no label of [s]. *)
Definition reindex (s : Series) (k : string) : binary64 :=
  match get s k with
  | Some v => v
  | None => nan
  end.




End Binary64.

(** ** Notions used in the further statements *)

(** A scaler fitted on the 19 meta features: one finite mean and one
    finite scale other than 0 for each of them. *)
Definition fitted_on_features (scaler : StandardScaler) : bool :=
  Nat.eqb (List.length (mean_ scaler)) (List.length features)
  && Nat.eqb (List.length (scale_ scaler)) (List.length features)
  && forallb isfinite (mean_ scaler)
  && forallb (fun s => isfinite s && negb (s ==? zero)%float) (scale_ scaler).

(** A table with data: no success ratio is infinite and some ratio is
    known; no meta feature is infinite and every project has at least one
    meta feature. *)
Definition table_with_data (df : list Row) : bool :=
  forallb (fun r => negb (isinf (percent_funded_of r))
                    && negb (all_missing r)
                    && forallb (fun f => negb (isinf (cell r f))) features) df
  && existsb (fun r => notnull (percent_funded_of r)) df.

(** ** Parameters and tables used as examples *)

Module Examples.

(** A scaler fitted on 19 features: every mean 1, every scale 2. *)
Definition demo_scaler : StandardScaler :=
  mkScaler (map (fun _ => of_Z 1) features) (map (fun _ => of_Z 2) features).

(** The meta features of a project: 3 for every feature. *)
Definition demo_meta_features : list float64 :=
  map (fun _ => of_Z 3) features.

(** The coefficients of a classifier of two classes over 10 columns. *)
Definition coef_two_classes : Frame :=
  [map of_Z [1; 2; 3; 4; 5; 6; 7; 8; 9; 10]%Z;
   map of_Z [-1; -2; -3; -4; -5; -6; -7; -8; -9; -10]%Z].

(** A training table of three projects, the second with no data. *)
Definition training_table : list Training.Labelled :=
  [Training.mkLabelled (Scenario.project 200 100 0) true;
   Training.mkLabelled (mkRow (of_Z 10) (of_Z 100) []) false;
   Training.mkLabelled (Scenario.project 50 100 2) false].

End Examples.

(** * Properties *)

(** ** Arithmetic of float64 values *)

Section FloatFacts.

Local Open Scope float_scope.

Lemma sgn_num (a : Qc) : sgn a = (Qnum (this a) ?= 0)%Z.
Proof.
  unfold sgn, Qccompare, Qcompare. simpl.
  now rewrite Z.mul_1_r.
Qed.

Lemma sgn_mul (a b : Qc) : sgn (a * b)%Qc = comp_mul (sgn a) (sgn b).
Proof.
  rewrite (sgn_num a), (sgn_num b).
  unfold sgn, Qccompare, Qcmult.
  change (this 0%Qc) with (Qred 0).
  change (this (Q2Qc (this a * this b))) with (Qred (this a * this b)).
  rewrite <- Qred_compare.
  unfold Qcompare. simpl. rewrite Z.mul_1_r.
  destruct (Qnum (this a)), (Qnum (this b)); reflexivity.
Qed.

Lemma add_assoc (x y z : float64) : x + (y + z) = (x + y) + z.
Proof.
  destruct x as [a| | |], y as [b| | |], z as [c| | |]; simpl;
    try reflexivity.
  f_equal. ring.
Qed.

Lemma add_zero_l (x : float64) : zero + x = x.
Proof. destruct x; simpl; try reflexivity. f_equal. ring. Qed.

Lemma eqb_geb (x y : float64) : (x ==? y) = true -> (x >=? y) = true.
Proof.
  destruct x as [a| | |], y as [b| | |]; simpl; try discriminate; auto.
  destruct (Qc_eq_dec a b) as [->|]; [intros _ | discriminate].
  unfold geb, leb. now rewrite (proj1 (Qceq_alt b b) eq_refl).
Qed.



Lemma sum_from (l : list float64) (acc : float64) :
  fold_left add l acc = acc + Float.sum l.
Proof.
  unfold Float.sum. revert acc.
  induction l as [|x l IH]; intro acc; cbn [fold_left].
  - destruct acc; simpl; try reflexivity. f_equal. ring.
  - rewrite IH, (IH (zero + x)), add_zero_l. symmetry. apply add_assoc.
Qed.

Lemma sum_cons (x : float64) (l : list float64) :
  Float.sum (x :: l) = x + Float.sum l.
Proof. unfold Float.sum at 1. cbn [fold_left]. now rewrite sum_from, add_zero_l. Qed.

Lemma sum_app (l1 l2 : list float64) :
  Float.sum (l1 ++ l2) = Float.sum l1 + Float.sum l2.
Proof.
  induction l1 as [|x l1 IH]; cbn [app].
  - change (Float.sum []) with zero. now rewrite add_zero_l.
  - now rewrite !sum_cons, IH, add_assoc.
Qed.

(** Two numbers of the same value are the same float64. *)
Lemma Fin_ext (a b : Qc) : (this a == this b)%Q -> Fin a = Fin b.
Proof. intro H. f_equal. now apply Qc_is_canon. Qed.

End FloatFacts.

(** ** Series: selection by labels and element-wise product *)

Lemma string_eqb_sym (a b : string) : String.eqb a b = String.eqb b a.
Proof.
  destruct (String.eqb_spec a b) as [->|Hab].
  - now rewrite String.eqb_refl.
  - destruct (String.eqb_spec b a) as [->|]; [now elim Hab | reflexivity].
Qed.

Lemma has_label_cons (k' : string) (v : float64) (s : Series) (k : string) :
  has_label ((k', v) :: s) k = String.eqb k' k || has_label s k.
Proof. unfold has_label. simpl. now rewrite (string_eqb_sym k k'). Qed.

Lemma has_label_In (s : Series) (k : string) :
  has_label s k = true <-> In k (index s).
Proof.
  unfold has_label. rewrite existsb_exists. split.
  - intros (x & Hx & E). apply String.eqb_eq in E. now subst.
  - intro H. exists k. split; [assumption | apply String.eqb_refl].
Qed.

Lemma loc_nil (s : Series) (k : string) :
  has_label s k = false -> loc s k = [].
Proof.
  induction s as [|[k' v] s IH]; [reflexivity|].
  rewrite has_label_cons. intro H.
  apply orb_false_iff in H as [Hk Hs].
  unfold loc in *. simpl. rewrite Hk. now apply IH.
Qed.

Lemma reindex_cons_other (k' : string) (v : float64) (s : Series) (k : string) :
  String.eqb k' k = false -> reindex ((k', v) :: s) k = reindex s k.
Proof. unfold reindex. simpl. now intros ->. Qed.

Lemma loc_unique (s : Series) (k : string) :
  is_unique (index s) = true -> has_label s k = true ->
  loc s k = [(k, reindex s k)].
Proof.
  induction s as [|[k' v] s IH]; [discriminate|].
  simpl. intros Hu. apply andb_true_iff in Hu as [Hfresh Hu].
  rewrite has_label_cons. unfold loc in *. simpl.
  destruct (String.eqb_spec k' k) as [->|Hne]; simpl.
  - intros _. unfold reindex. simpl. rewrite String.eqb_refl.
    f_equal. apply (loc_nil s k). now apply negb_true_iff.
  - intro Hk. rewrite (IH Hu Hk). unfold reindex. simpl.
    now rewrite (proj2 (String.eqb_neq k' k) Hne).
Qed.

Lemma getitem_unique (s : Series) (keys : list string) :
  is_unique (index s) = true ->
  forallb (has_label s) keys = true ->
  getitem s keys = Ok (map (fun k => (k, reindex s k)) keys).
Proof.
  intro Hu. induction keys as [|k ks IH]; [reflexivity|].
  simpl. intro H. apply andb_true_iff in H as [Hk Hks].
  rewrite (loc_unique s k Hu Hk), (IH Hks). reflexivity.
Qed.

Lemma getitem_only_KeyError (s : Series) (keys : list string) (e : exn) :
  getitem s keys = Err e -> e = KeyError.
Proof.
  induction keys as [|k ks IH]; simpl; [discriminate|].
  destruct (loc s k); [now intros [= <-]|].
  destruct (getitem s ks); simpl; [discriminate|].
  intros [= <-]. now apply IH.
Qed.

Lemma getitem_KeyError (s : Series) (keys : list string) (k : string) :
  In k keys -> has_label s k = false -> getitem s keys = Err KeyError.
Proof.
  intros Hin Hk. induction keys as [|k0 ks IH]; [contradiction|].
  simpl. destruct Hin as [->|Hin].
  - now rewrite (loc_nil s k Hk).
  - destruct (loc s k0); [reflexivity|]. now rewrite (IH Hin).
Qed.

Lemma multiply_aux_map (f g : string -> float64) (keys : list string) :
  multiply_aux (map (fun k => (k, f k)) keys) (map (fun k => (k, g k)) keys)
  = map (fun k => (k, (f k * g k)%float)) keys.
Proof. induction keys as [|k ks IH]; simpl; [reflexivity | now rewrite IH]. Qed.

(** The two scores of the notebook are one computation. *)
Lemma top_project_score_eq (std ranks : Series) (pf : list string) :
  top_project_score std ranks pf = user_project_score std ranks pf.
Proof. reflexivity. Qed.

(** ** The weighted scores *)

Lemma user_project_score_covered (std ranks : Series) (subset : list string) :
  is_unique (index std) = true ->
  is_unique (index ranks) = true ->
  forallb (fun k => has_label std k && has_label ranks k) subset = true ->
  user_project_score std ranks subset
  = Ok (map (fun k => (k, (reindex std k * reindex ranks k)%float)) subset).
Proof.
  intros Hu Hr Hall.
  assert (H1 : forallb (has_label std) subset = true
               /\ forallb (has_label ranks) subset = true).
  { clear Hu Hr. induction subset as [|k ks IH]; [now split|].
    simpl in *. apply andb_true_iff in Hall as [Hk Hks].
    apply andb_true_iff in Hk as [-> ->].
    destruct (IH Hks) as [-> ->]. now split. }
  destruct H1 as [H1 H2]. unfold user_project_score.
  rewrite (getitem_unique _ _ Hu H1), (getitem_unique _ _ Hr H2).
  simpl. unfold np_multiply. rewrite !length_map, Nat.eqb_refl.
  now rewrite multiply_aux_map.
Qed.

(** C1.  For vectors with unique labels, when every name of the feature
    subset is a label of both the standardized vector and the coefficient
    vector, the score of every name of the subset is its standardized
    value times its coefficient, in the order of the subset; when some
    name of the subset is absent from either vector, the score is a
    KeyError, and no score at all is returned. *)
Theorem user_project_score_spec (feature_vector_std ranks : Series)
    (subset : list string) :
  (is_unique (index feature_vector_std) = true ->
   is_unique (index ranks) = true ->
   forallb (fun k => has_label feature_vector_std k && has_label ranks k)
     subset = true ->
   user_project_score feature_vector_std ranks subset
   = Ok (map (fun k => (k, (reindex feature_vector_std k * reindex ranks k)%float))
           subset))
  /\ (forall name : string,
        In name subset ->
        has_label feature_vector_std name = false
        \/ has_label ranks name = false ->
        user_project_score feature_vector_std ranks subset = Err KeyError).
Proof.
  split.
  - apply user_project_score_covered.
  - intros name Hin [Hmiss|Hmiss]; unfold user_project_score.
    + now rewrite (getitem_KeyError _ _ _ Hin Hmiss).
    + destruct (getitem feature_vector_std subset) as [a|e] eqn:E; simpl.
      * now rewrite (getitem_KeyError _ _ _ Hin Hmiss).
      * f_equal. now apply getitem_only_KeyError in E.
Qed.

Lemma user_project_score_spec_witness :
  user_project_score Scenario.demo_std Scenario.demo_ranks predictive_features
  = Ok (map (fun k => (k, (reindex Scenario.demo_std k
                           * reindex Scenario.demo_ranks k)%float))
          predictive_features)
  /\ user_project_score Scenario.demo_std Scenario.demo_ranks
       ["num_images"; "typo_feature"]
     = Err KeyError.
Proof.
  split.
  - apply (proj1 (user_project_score_spec Scenario.demo_std
                    Scenario.demo_ranks predictive_features));
      reflexivity.
  - apply (proj2 (user_project_score_spec Scenario.demo_std
                    Scenario.demo_ranks ["num_images"; "typo_feature"])
             "typo_feature").
    + simpl. auto.
    + left. reflexivity.
Defined.

(** ** The scaling of the weighted scores, on binary64 values *)















(** ** The reference cohort *)

Import Scenario.

(** Closed equations between computed values: evaluate both sides, and
    compare the numbers that remain by their value. *)
Ltac by_evaluation :=
  vm_compute;
  first [ reflexivity
        | repeat (first [ apply (f_equal (@Ok float64))
                        | apply (f_equal (@Ok (option float64)))
                        | apply (f_equal (@Some float64)) ]);
          apply Fin_ext; reflexivity ].

Lemma div_NaN_r (x : float64) : (x / NaN)%float = NaN.
Proof. now destruct x. Qed.





(** The average is a function of the selection. *)
Lemma avg_top_projects_of_top (q : Qc) (df : list Row) :
  avg_top_projects q df
  = rmap (fun top =>
            DataFrame_mean features
              (map (map (fillna zero))
                 (filter (fun row => negb (isnull_all row))
                    (map (fun r => map (cell r) features) top))))
      (top_projects q df).
Proof.
  unfold avg_top_projects, X_cleaned, X_nonnull, X, rmap.
  now destruct (top_projects q df).
Qed.


(** C2.  The cut is inclusive: a row whose success ratio equals the
    quantile threshold is one of the top projects.  And in scenario 1
    (pledged 200 and 50 for a goal of 100, quantile 0.5) the threshold is
    1.25, the first row alone is selected, and the mean of [num_images]
    is 0. *)
Theorem quantile_cut_inclusive :
  (forall (q : Qc) (df : list Row) (limit : float64) (r : Row),
      quantile_limit q df = Ok limit ->
      In r df ->
      (percent_funded_of r ==? limit)%float = true ->
      exists top, top_projects q df = Ok top /\ In r top)
  /\ quantile_limit half cohort1 = Ok (flt 5 4)
  /\ top_projects half cohort1 = Ok [project 200 100 0]
  /\ rmap (fun avg => get avg "num_images") (avg_top_projects half cohort1)
     = Ok (Some zero).
Proof.
  split; [|split; [|split]].
  - intros q df limit r Hq Hin Heq.
    unfold top_projects. rewrite Hq. simpl.
    eexists. split; [reflexivity|].
    apply filter_In. split; [assumption | now apply eqb_geb].
  - by_evaluation.
  - by_evaluation.
  - by_evaluation.
Qed.

Lemma quantile_cut_inclusive_witness :
  exists top, top_projects half cohort_tie = Ok top
              /\ In (project 100 100 3) top.
Proof.
  apply (proj1 quantile_cut_inclusive half cohort_tie (flt 1 1)).
  - by_evaluation.
  - simpl. auto.
  - by_evaluation.
Defined.


Lemma check_percentile_iff (q : Qc) :
  check_percentile q = true <-> (0 <= q)%Qc /\ (q <= 1)%Qc.
Proof.
  unfold check_percentile. rewrite (Qcle_alt 0 q), (Qcle_alt q 1).
  destruct (0 ?= q)%Qc, (q ?= 1)%Qc; split; intro H;
    try discriminate; try (split; discriminate); try reflexivity;
    destruct H as [H1 H2]; try (now elim H1); now elim H2.
Qed.






(** ** The empty selection *)

(** C5, as the code has it.  When no row is left after the cut and the
    removal of the rows with no data, no error is raised: the average is
    the vector whose 19 values are all missing (NaN), which is not the
    zero vector. *)
Theorem avg_top_projects_empty (q : Qc) (df : list Row) :
  X_cleaned q df = Ok [] ->
  avg_top_projects q df = Ok all_nan
  /\ Forall (fun v => isnull v = true) (values all_nan).
Proof.
  intro H. split.
  - unfold avg_top_projects. now rewrite H.
  - unfold all_nan, values. rewrite map_map. simpl.
    repeat constructor.
Qed.

Lemma avg_top_projects_empty_witness :
  avg_top_projects q95 cohort_no_data = Ok all_nan
  /\ Forall (fun v => isnull v = true) (values all_nan).
Proof.
  apply (avg_top_projects_empty q95 cohort_no_data).
  reflexivity.
Defined.

(** C5, as the specification states it, fails: for the empty table, and
    for a cohort whose only project has no meta feature, the selection is
    empty and an average is returned all the same. *)
Lemma empty_cohort_is_no_error :
  X_cleaned q95 cohort_no_data = Ok []
  /\ avg_top_projects q95 cohort_no_data = Ok all_nan
  /\ X_cleaned q95 [] = Ok []
  /\ avg_top_projects q95 [] = Ok all_nan
  /\ ~ (forall (q : Qc) (df : list Row),
          X_cleaned q df = Ok [] ->
          exists e : exn, avg_top_projects q df = Err e).
Proof.
  repeat split; try reflexivity.
  intro H. destruct (H q95 cohort_no_data eq_refl) as [e He].
  discriminate He.
Qed.

(** ** The average of the top projects *)

Lemma combine_seq_map {A : Type} (columns : list string)
    (g : nat -> A) (h : string -> A) (start : nat) :
  (forall j : nat, (j < List.length columns)%nat ->
                   g (start + j)%nat = h (nth j columns "")) ->
  combine columns (map g (seq start (List.length columns)))
  = map (fun f => (f, h f)) columns.
Proof.
  revert start. induction columns as [|c cs IH]; intros start H;
    [reflexivity|].
  simpl. f_equal.
  - f_equal. assert (H0 := H 0%nat). simpl in H0.
    rewrite Nat.add_0_r in H0. apply H0. lia.
  - apply IH. intros j Hj.
    replace (S start + j)%nat with (start + S j)%nat by lia.
    apply (H (S j)). simpl. lia.
Qed.

Lemma forallb_map_comp {A B : Type} (f : B -> bool) (g : A -> B)
    (l : list A) :
  forallb f (map g l) = forallb (fun a => f (g a)) l.
Proof. induction l as [|a l IH]; simpl; [reflexivity | now rewrite IH]. Qed.

Lemma filter_notnull_fillna (l : list float64) :
  filter notnull (map (fillna zero) l) = map (fillna zero) l.
Proof.
  apply forallb_filter_id. rewrite forallb_map_comp.
  apply forallb_forall. intros x _. now destruct x.
Qed.

(** On a column with no missing value, the mean that skips missing
    values is the arithmetic mean. *)
Lemma nanmean_fillna (l : list float64) :
  nanmean (map (fillna zero) l) = arithmetic_mean (map (fillna zero) l).
Proof.
  unfold nanmean. rewrite filter_notnull_fillna.
  destruct (map (fillna zero) l); reflexivity.
Qed.

Lemma isnull_all_cells (r : Row) :
  isnull_all (map (cell r) features) = all_missing r.
Proof. unfold isnull_all, all_missing. now rewrite forallb_map_comp. Qed.

Lemma column_at_cleaned (j : nat) (rows : list Row) :
  (j < List.length features)%nat ->
  column_at j (map (map (fillna zero))
                 (map (fun r => map (cell r) features) rows))
  = map (fillna zero) (map (fun r => cell r (nth j features "")) rows).
Proof.
  intro Hj. unfold column_at. rewrite !map_map.
  apply map_ext. intro r.
  rewrite (nth_indep _ NaN (fillna zero (cell r ""))).
  - now rewrite (map_nth (fillna zero)), (map_nth (cell r)).
  - now rewrite !length_map.
Qed.

(** C7.  The average of the top projects is the vector of the
    specification: over the selected rows, the rows with all 19 meta
    features missing are dropped, every value still missing is read as 0,
    and each of the 19 features gets the arithmetic mean of its column. *)
Theorem avg_top_projects_refines (q : Qc) (df : list Row) :
  avg_top_projects q df = rmap spec_reference (top_projects q df).
Proof.
  rewrite avg_top_projects_of_top.
  destruct (top_projects q df) as [top|e]; [|reflexivity].
  unfold rmap, bind. f_equal.
  unfold spec_reference, DataFrame_mean.
  rewrite filter_map_swap.
  rewrite (filter_ext _ (fun r => negb (all_missing r)))
    by (intro r; cbv beta; now rewrite isnull_all_cells).
  apply combine_seq_map. intros j Hj. rewrite Nat.add_0_l.
  rewrite (column_at_cleaned j _ Hj), nanmean_fillna.
  now rewrite map_map.
Qed.

(** ** The table behind the plot *)

Lemma existsb_eqb_In (k : string) (l : list string) :
  existsb (String.eqb k) l = true <-> In k l.
Proof.
  rewrite existsb_exists. split.
  - intros (x & Hx & E). apply String.eqb_eq in E. now subst.
  - intro H. exists k. split; [assumption | apply String.eqb_refl].
Qed.

Lemma union_index_same (a : list string) : union_index a a = a.
Proof.
  unfold union_index.
  rewrite (filter_ext_in _ (fun _ => false)).
  - now rewrite filter_false, app_nil_r.
  - intros k Hk. apply negb_false_iff. now apply existsb_eqb_In.
Qed.

Lemma reindex_index (s : Series) :
  is_unique (index s) = true -> map (reindex s) (index s) = values s.
Proof.
  induction s as [|[k v] s IH]; [reflexivity|].
  simpl. intro Hu. apply andb_true_iff in Hu as [Hfresh Hu].
  f_equal.
  - unfold reindex. simpl. now rewrite String.eqb_refl.
  - rewrite <- (IH Hu). apply map_ext_in. intros k' Hk'.
    apply reindex_cons_other.
    destruct (String.eqb_spec k k') as [->|]; [|reflexivity].
    apply negb_true_iff in Hfresh.
    apply (proj2 (existsb_eqb_In _ _)) in Hk'.
    congruence.
Qed.

Lemma messy_same_index (your top : Series) :
  is_unique (index your) = true -> index top = index your ->
  messy your top
  = Ok (map (fun k => (k, reindex your k, reindex top k)) (index your)).
Proof.
  intros Hu Hidx. unfold messy.
  now rewrite Hidx, Hu, union_index_same.
Qed.

Lemma tidy_of_keys (y t : string -> float64) (keys : list string) :
  tidy (map (fun k => (k, y k, t k)) keys)
  = map (fun k => (k, "Your project", y k)) keys
    ++ map (fun k => (k, "Top projects", t k)) keys.
Proof. unfold tidy. now rewrite !map_map. Qed.

Lemma tidy_labels (y t : string -> float64) (keys : list string) :
  map (fun row => fst (fst row)) (tidy (map (fun k => (k, y k, t k)) keys))
  = keys ++ keys.
Proof.
  rewrite tidy_of_keys, map_app, !map_map. cbn [fst]. now rewrite map_id.
Qed.

(** *** The order of the labels on the axis *)

Lemma filter_comm {A : Type} (f g : A -> bool) (l : list A) :
  filter f (filter g l) = filter g (filter f l).
Proof.
  induction l as [|a l IH]; [reflexivity|].
  simpl. destruct (f a) eqn:Fa, (g a) eqn:Ga; simpl;
    rewrite ?Fa, ?Ga, IH; reflexivity.
Qed.

Lemma filter_twice {A : Type} (f : A -> bool) (l : list A) :
  filter f (filter f l) = filter f l.
Proof.
  induction l as [|a l IH]; [reflexivity|].
  simpl. destruct (f a) eqn:Fa; simpl; rewrite ?Fa, IH; reflexivity.
Qed.

Lemma order_of_appearance_filter (k : string) (l : list string) :
  filter (fun x => negb (String.eqb x k)) (order_of_appearance l)
  = order_of_appearance (filter (fun x => negb (String.eqb x k)) l).
Proof.
  induction l as [|x l IH]; [reflexivity|].
  simpl. destruct (String.eqb_spec x k) as [->|Hne]; simpl.
  - now rewrite filter_twice.
  - f_equal. now rewrite filter_comm, IH.
Qed.

Lemma filter_fresh (k : string) (a : list string) :
  existsb (String.eqb k) a = false ->
  filter (fun x => negb (String.eqb x k)) a = a.
Proof.
  induction a as [|x a IH]; [reflexivity|].
  simpl. intro H. apply orb_false_iff in H as [Hx Ha].
  now rewrite (string_eqb_sym x k), Hx, (IH Ha).
Qed.

Lemma order_of_appearance_absorb (a b : list string) :
  is_unique a = true -> (forall x, In x b -> In x a) ->
  order_of_appearance (a ++ b) = a.
Proof.
  revert b. induction a as [|k a IH]; intros b Hu Hb.
  - destruct b as [|x b]; [reflexivity|]. now elim (Hb x (or_introl eq_refl)).
  - simpl in Hu. apply andb_true_iff in Hu as [Hfresh Hu].
    apply negb_true_iff in Hfresh.
    simpl. f_equal.
    rewrite order_of_appearance_filter, filter_app, (filter_fresh k a Hfresh).
    apply IH; [assumption|].
    intros x Hx. apply filter_In in Hx as [Hx Hne].
    destruct (Hb x Hx) as [->|Hin]; [|assumption].
    now rewrite String.eqb_refl in Hne.
Qed.

(** *** The bars *)

Lemma nanmean_single (v : float64) : nanmean [v] = v.
Proof.
  destruct v as [a| | |]; try reflexivity.
  - cbv [nanmean filter notnull isnull negb].
    rewrite sum_cons. change (Float.sum []) with zero.
    unfold of_nat, of_Z, zero, Float.add, Float.div.
    change (Q2Qc (inject_Z (Z.of_nat (List.length [Fin a])))) with 1%Qc.
    destruct (Qc_eq_dec 1 0) as [E|Hne]; [discriminate E|].
    f_equal. field. exact Hne.
Qed.

Lemma filter_rows_hit (hue : string) (f : string -> float64)
    (keys : list string) (cat : string) :
  is_unique keys = true -> In cat keys ->
  filter (fun row : string * string * float64 =>
            String.eqb (fst (fst row)) cat && String.eqb (snd (fst row)) hue)
    (map (fun k => (k, hue, f k)) keys)
  = [(cat, hue, f cat)].
Proof.
  induction keys as [|k keys IH]; [contradiction|].
  simpl. intros Hu Hin. apply andb_true_iff in Hu as [Hfresh Hu].
  apply negb_true_iff in Hfresh.
  rewrite (String.eqb_refl hue).
  destruct (String.eqb_spec k cat) as [->|Hne]; cbn [andb].
  - f_equal. rewrite filter_map_swap. simpl.
    rewrite (filter_ext_in _ (fun _ => false)); [now rewrite filter_false|].
    intros x Hx. rewrite (String.eqb_refl hue), andb_true_r.
    destruct (String.eqb_spec x cat) as [->|]; [|reflexivity].
    apply existsb_eqb_In in Hx. congruence.
  - destruct Hin as [E|Hin]; [now elim Hne|]. now apply IH.
Qed.

Lemma filter_rows_miss (hue hue' : string) (f : string -> float64)
    (keys : list string) (cat : string) :
  String.eqb hue' hue = false ->
  filter (fun row : string * string * float64 =>
            String.eqb (fst (fst row)) cat && String.eqb (snd (fst row)) hue)
    (map (fun k => (k, hue', f k)) keys)
  = [].
Proof.
  intro H. rewrite filter_map_swap. simpl.
  rewrite (filter_ext _ (fun _ => false)); [now rewrite filter_false|].
  intro x. now rewrite H, andb_false_r.
Qed.

Lemma bar_tidy (y t : string -> float64) (keys : list string) (cat : string) :
  is_unique keys = true -> In cat keys ->
  bar (tidy (map (fun k => (k, y k, t k)) keys)) cat "Your project" = y cat
  /\ bar (tidy (map (fun k => (k, y k, t k)) keys)) cat "Top projects" = t cat.
Proof.
  intros Hu Hin. unfold bar. rewrite tidy_of_keys, !filter_app. split.
  - rewrite (filter_rows_hit "Your project" y keys cat Hu Hin).
    rewrite (filter_rows_miss "Your project" "Top projects") by reflexivity.
    apply nanmean_single.
  - rewrite (filter_rows_miss "Top projects" "Your project") by reflexivity.
    rewrite (filter_rows_hit "Top projects" t keys cat Hu Hin).
    apply nanmean_single.
Qed.

(** *** The tick labels *)

Lemma tick_label_seq (labs : list string) (b i : nat) :
  (i < List.length labs)%nat ->
  tick_label (combine (seq b (List.length labs)) labs) (b + i)
  = nth i labs "".
Proof.
  revert b i. induction labs as [|l labs IH]; intros b i Hi;
    [simpl in Hi; lia|].
  simpl. destruct i as [|i].
  - now rewrite Nat.add_0_r, Nat.eqb_refl.
  - replace (Nat.eqb b (b + S i)) with false
      by (symmetry; apply Nat.eqb_neq; lia).
    replace (b + S i)%nat with (S b + i)%nat by lia.
    apply IH. simpl in Hi. lia.
Qed.

Lemma rows_labelled (ticks : list (nat * string)) (labs : list string)
    (F G : string -> float64) (cats : list string) (b : nat) :
  List.length cats = List.length labs ->
  (forall i : nat, (i < List.length labs)%nat ->
                   tick_label ticks (b + i) = nth i labs "") ->
  map (fun ic => (tick_label ticks (fst ic), F (snd ic), G (snd ic)))
    (enumerate_from b cats)
  = combine (combine labs (map F cats)) (map G cats).
Proof.
  revert labs b. induction cats as [|c cats IH]; intros [|l labs] b Hlen H;
    try discriminate; [reflexivity|].
  simpl. f_equal.
  - assert (H0 := H 0%nat). simpl in H0. rewrite Nat.add_0_r in H0.
    rewrite H0 by lia. reflexivity.
  - apply IH; [simpl in Hlen; lia|].
    intros i Hi. replace (S b + i)%nat with (b + S i)%nat by lia.
    apply (H (S i)). simpl. lia.
Qed.

(** With both scores on the index [subset], one label per name. *)
Lemma assemble_positional (your top : Series) (subset : list string) :
  is_unique subset = true ->
  index your = subset -> index top = subset ->
  List.length subset = List.length labels ->
  assemble your top subset
  = Ok (combine (combine labels (values your)) (values top)).
Proof.
  intros Hu Hy Ht Hlen. unfold assemble.
  rewrite (messy_same_index your top) by congruence.
  unfold plt_yticks. rewrite length_seq, Hlen, Nat.eqb_refl.
  unfold bind. f_equal. rewrite Hy.
  rewrite tidy_labels.
  rewrite (order_of_appearance_absorb subset subset Hu (fun x H => H)).
  set (T := tidy (map (fun k => (k, reindex your k, reindex top k)) subset)).
  rewrite (rows_labelled _ labels (fun c => bar T c "Your project")
             (fun c => bar T c "Top projects") subset 0 Hlen)
    by (intros i Hi; now apply tick_label_seq).
  rewrite <- (reindex_index your), <- (reindex_index top) by congruence.
  rewrite Hy, Ht. subst T. f_equal; [f_equal|];
    apply map_ext_in; intros k Hk;
    now destruct (bar_tidy (reindex your) (reindex top) subset k Hu Hk).
Qed.

Lemma combine3_map {A B C K : Type} (labs : list A) (keys : list K)
    (f : K -> B) (g : K -> C) :
  combine (combine labs (map f keys)) (map g keys)
  = map (fun lk => (fst lk, f (snd lk), g (snd lk))) (combine labs keys).
Proof.
  revert keys. induction labs as [|l labs IH]; intros [|k keys];
    try reflexivity.
  simpl. now rewrite IH.
Qed.

Lemma forallb_and3 {A : Type} (f g h : A -> bool) (l : list A) :
  forallb (fun a => f a && g a && h a) l = true ->
  forallb f l = true /\ forallb g l = true /\ forallb h l = true.
Proof.
  induction l as [|a l IH]; [now repeat split|].
  simpl. intro H. apply andb_true_iff in H as [Ha Hl].
  apply andb_true_iff in Ha as [Ha Hh].
  apply andb_true_iff in Ha as [Hf Hg].
  destruct (IH Hl) as (-> & -> & ->).
  now rewrite Hf, Hg, Hh.
Qed.

Lemma forallb_and2 {A : Type} (f g : A -> bool) (l : list A) :
  forallb f l = true -> forallb g l = true ->
  forallb (fun a => f a && g a) l = true.
Proof.
  intros Hf Hg. apply forallb_forall. intros a Ha.
  rewrite forallb_forall in Hf, Hg. now rewrite (Hf a Ha), (Hg a Ha).
Qed.

(** C9, as the code has it.  For a subset of as many distinct names as
    there are labels, all present in the three vectors, the rows come out
    in exactly the order of the subset, never reordered by score, and the
    i-th row carries the i-th label of the fixed list: the label is given
    by position, not looked up by name.  The fixed list pairs every
    predictive feature, in the order of [predictive_features], with
    exactly one label. *)
Theorem suggestions_in_subset_order
    (feature_vector_std top_project_std ranks : Series)
    (subset : list string) :
  (is_unique (index feature_vector_std) = true ->
   is_unique (index top_project_std) = true ->
   is_unique (index ranks) = true ->
   is_unique subset = true ->
   forallb (fun k => has_label feature_vector_std k
                     && has_label top_project_std k
                     && has_label ranks k) subset = true ->
   List.length subset = List.length labels ->
   suggestions feature_vector_std top_project_std ranks subset
   = Ok (map (fun lk =>
                (fst lk,
                 (reindex feature_vector_std (snd lk) * reindex ranks (snd lk))%float,
                 (reindex top_project_std (snd lk) * reindex ranks (snd lk))%float))
           (combine labels subset)))
  /\ (forall name : string,
        In name predictive_features ->
        exists label : string,
          filter (fun p => String.eqb (fst p) name) label_table
          = [(name, label)]).
Proof.
  split.
  - intros Hf Ht Hr Hu Hall Hlen.
    apply forallb_and3 in Hall as (Hlf & Hlt & Hlr).
    unfold suggestions.
    change (top_project_score top_project_std ranks subset)
      with (user_project_score top_project_std ranks subset).
    rewrite (user_project_score_covered feature_vector_std ranks subset
               Hf Hr (forallb_and2 _ _ _ Hlf Hlr)).
    rewrite (user_project_score_covered top_project_std ranks subset
               Ht Hr (forallb_and2 _ _ _ Hlt Hlr)).
    unfold bind.
    rewrite assemble_positional; trivial.
    + f_equal. unfold values. rewrite !map_map.
      exact (combine3_map labels subset
               (fun k => (reindex feature_vector_std k * reindex ranks k)%float)
               (fun k => (reindex top_project_std k * reindex ranks k)%float)).
    + unfold index. rewrite map_map. simpl. apply map_id.
    + unfold index. rewrite map_map. simpl. apply map_id.
  - intros name Hin. simpl in Hin.
    repeat (destruct Hin as [<-|Hin]; [eexists; reflexivity|]).
    contradiction.
Qed.

Lemma suggestions_in_subset_order_witness :
  suggestions demo_std demo_top_std demo_ranks predictive_features
  = Ok (map (fun lk =>
               (fst lk,
                (reindex demo_std (snd lk) * reindex demo_ranks (snd lk))%float,
                (reindex demo_top_std (snd lk) * reindex demo_ranks (snd lk))%float))
          (combine labels predictive_features)).
Proof.
  apply (proj1 (suggestions_in_subset_order demo_std demo_top_std demo_ranks
                  predictive_features));
    reflexivity.
Defined.

(** C9, as the specification states it, fails: [num_sents] has no label
    in the table, and a subset that holds it in the place of [num_words]
    does not fail; it is shown under the label of [num_words].  The
    predictive features in reverse order keep the labels in their fixed
    order too, so that [num_words] is shown as 'hyperlinks'. *)
Lemma unregistered_name_is_labelled :
  In "num_sents" subset_unlabelled
  /\ registered "num_sents" = false
  /\ rmap (map (fun row => fst (fst row)))
       (suggestions demo_std demo_top_std demo_ranks subset_unlabelled)
     = Ok labels
  /\ rmap (map (fun row => fst (fst row)))
       (suggestions demo_std demo_top_std demo_ranks (rev predictive_features))
     = Ok labels.
Proof.
  split; [simpl; tauto|]. repeat split; reflexivity.
Qed.

(** ** The alignment of the coefficients *)

Lemma concat_singletons {A B : Type} (f : A -> B) (l : list A) :
  List.concat (map (fun a => [f a]) l) = map f l.
Proof. induction l as [|a l IH]; simpl; [reflexivity | now rewrite IH]. Qed.

Lemma map_nth_seq {A : Type} (l : list A) (d : A) :
  map (fun j => nth j l d) (seq 0 (List.length l)) = l.
Proof.
  induction l as [|a l IH]; [reflexivity|].
  simpl. f_equal. rewrite <- seq_shift, map_map. exact IH.
Qed.

Lemma ravel_transpose_row (w : list float64) : ravel (transpose [w]) = w.
Proof.
  unfold ravel, transpose, column_at. simpl.
  rewrite (concat_singletons (fun j => nth j w NaN)).
  apply map_nth_seq.
Qed.

Lemma combine_nil_r {A B : Type} (l : list A) : combine l (@nil B) = [].
Proof. now destruct l. Qed.

Lemma combine_app_split {A B : Type} (xs xn : list A) (w : list B) :
  combine (xs ++ xn) w
  = combine xs (firstn (List.length xs) w)
    ++ combine xn (skipn (List.length xs) w).
Proof.
  revert w. induction xs as [|x xs IH]; intros [|y w]; simpl;
    try reflexivity.
  - now rewrite combine_nil_r.
  - now rewrite IH.
Qed.

Lemma dot_app (xs xn w : list float64) :
  dot (xs ++ xn) w
  = (dot xs (firstn (List.length xs) w)
     + dot xn (skipn (List.length xs) w))%float.
Proof. unfold dot. now rewrite combine_app_split, map_app, sum_app. Qed.

Lemma values_combine (ks : list string) (vs : list float64) :
  List.length vs = List.length ks -> values (combine ks vs) = vs.
Proof.
  revert vs. induction ks as [|k ks IH]; intros [|v vs] H;
    try discriminate; [reflexivity|].
  simpl. f_equal. apply IH. simpl in H. lia.
Qed.

Lemma get_combine_fresh (ks : list string) (vs : list float64) (k : string) :
  existsb (String.eqb k) ks = false -> get (combine ks vs) k = None.
Proof.
  revert vs. induction ks as [|k' ks IH]; intros [|v vs] H;
    try reflexivity.
  simpl in *. apply orb_false_iff in H as [Hk Hks].
  rewrite (string_eqb_sym k' k), Hk. now apply IH.
Qed.

Lemma get_combine_nth (ks : list string) (vs : list float64) (j : nat) :
  is_unique ks = true ->
  List.length vs = List.length ks ->
  (j < List.length ks)%nat ->
  get (combine ks vs) (nth j ks "") = Some (nth j vs NaN).
Proof.
  revert vs j. induction ks as [|k ks IH]; intros [|v vs] j Hu Hlen Hj;
    try discriminate; [simpl in Hj; lia|].
  simpl in Hu. apply andb_true_iff in Hu as [Hfresh Hu].
  apply negb_true_iff in Hfresh.
  destruct j as [|j]; simpl.
  - now rewrite String.eqb_refl.
  - assert (Hin : In (nth j ks "") ks)
      by (apply nth_In; simpl in Hj; lia).
    destruct (String.eqb_spec k (nth j ks "")) as [E|_].
    + apply existsb_eqb_In in Hin. congruence.
    + apply IH; simpl in *; [assumption | lia | lia].
Qed.

Lemma nth_firstn_lt {A : Type} (n j : nat) (l : list A) (d : A) :
  (j < n)%nat -> nth j (firstn n l) d = nth j l d.
Proof.
  revert j l. induction n as [|n IH]; intros j l Hj; [lia|].
  destruct l as [|a l]; [reflexivity|].
  destruct j as [|j]; [reflexivity|].
  simpl. apply IH. lia.
Qed.

(** C10.  For a classifier fitted on the design matrix [X_full], whose
    rows are the 19 standardized meta features followed by the n-grams,
    [feature_ranks] pairs the first 19 coefficients with the 19 names by
    position: the rank of the j-th name is the j-th coefficient, the j-th
    column of the design matrix is the j-th meta feature, and so the
    rank of a name is the weight that its own standardized value has in
    the decision function. *)
Theorem feature_ranks_aligned (w x_std x_ngrams : list float64)
    (intercept : float64) :
  List.length x_std = List.length features ->
  List.length w = (List.length x_std + List.length x_ngrams)%nat ->
  exists ranks : Series,
    feature_ranks [w] = Ok ranks
    /\ index ranks = features
    /\ values ranks = firstn (List.length features) w
    /\ X_full [x_std] [x_ngrams] = Ok [x_std ++ x_ngrams]
    /\ (forall j : nat,
          (j < List.length features)%nat ->
          get ranks (nth j features "") = Some (nth j w NaN)
          /\ nth j (x_std ++ x_ngrams) NaN = nth j x_std NaN)
    /\ decision_function [w] intercept (x_std ++ x_ngrams)
       = (dot x_std (values ranks)
          + dot x_ngrams (skipn (List.length features) w)
          + intercept)%float.
Proof.
  intros Hstd Hw.
  assert (Hfirst : List.length (firstn (List.length features) w)
                   = List.length features).
  { rewrite length_firstn. lia. }
  exists (combine features (firstn (List.length features) w)).
  assert (Hvalues := values_combine features _ Hfirst).
  split; [|split; [|split; [|split; [|split]]]].
  - unfold feature_ranks, pd_Series.
    now rewrite ravel_transpose_row, Hfirst, Nat.eqb_refl.
  - unfold index. clear - Hfirst. revert Hfirst.
    generalize (firstn (List.length features) w) as vs.
    induction features as [|k ks IH]; intros [|v vs] H;
      try discriminate; [reflexivity|].
    simpl. f_equal. apply IH. simpl in H. lia.
  - exact Hvalues.
  - reflexivity.
  - intros j Hj. split.
    + rewrite (get_combine_nth features _ j eq_refl Hfirst Hj).
      now rewrite nth_firstn_lt.
    + apply app_nth1. lia.
  - unfold decision_function. simpl nth.
    now rewrite dot_app, Hvalues, Hstd.
Qed.

Lemma feature_ranks_aligned_witness :
  exists ranks : Series,
    feature_ranks [demo_coef] = Ok ranks
    /\ index ranks = features
    /\ values ranks = firstn (List.length features) demo_coef
    /\ X_full [values demo_std] [demo_ngrams]
       = Ok [values demo_std ++ demo_ngrams]
    /\ (forall j : nat,
          (j < List.length features)%nat ->
          get ranks (nth j features "") = Some (nth j demo_coef NaN)
          /\ nth j (values demo_std ++ demo_ngrams) NaN
             = nth j (values demo_std) NaN)
    /\ decision_function [demo_coef] zero (values demo_std ++ demo_ngrams)
       = (dot (values demo_std) (values ranks)
          + dot demo_ngrams (skipn (List.length features) demo_coef)
          + zero)%float.
Proof.
  apply (feature_ranks_aligned demo_coef (values demo_std) demo_ngrams zero);
    reflexivity.
Defined.

(** ** The meta features of one project *)

Section ExtractorFacts.

Import FeatureExtractor.

Lemma of_nat_nonneg (n : nat) : finite_nonneg (of_nat n).
Proof.
  exists (Q2Qc (inject_Z (Z.of_nat n))). split; [reflexivity|].
  unfold Qcle, Q2Qc. cbn [this]. rewrite !Qred_correct.
  rewrite <- (Zle_Qle 0). lia.
Qed.

Lemma of_nat_pos_neq_0 (d : nat) :
  d <> 0%nat -> Q2Qc (inject_Z (Z.of_nat d)) <> 0%Qc.
Proof.
  intros Hd E. apply (f_equal this) in E.
  unfold Q2Qc in E. cbn [this] in E.
  apply Qred_eq_iff in E. unfold Qeq in E. simpl in E. lia.
Qed.

Lemma ratio_zero_denominator (n : nat) : ratio n 0 = zero.
Proof. reflexivity. Qed.

Lemma ratio_nonneg (n d : nat) : finite_nonneg (ratio n d).
Proof.
  unfold ratio. destruct (Nat.eqb_spec d 0) as [->|Hd].
  - exists 0%Qc. split; [reflexivity | apply Qcle_refl].
  - unfold of_nat, of_Z, Float.div.
    destruct (Qc_eq_dec _ 0) as [E|_];
      [now apply of_nat_pos_neq_0 in E|].
    eexists. split; [reflexivity|].
    unfold Qcle, Qcdiv, Qcmult, Qcinv, Q2Qc. cbn [this].
    rewrite !Qred_correct.
    apply Qle_shift_div_l.
    + rewrite <- (Zlt_Qlt 0). lia.
    + rewrite Qmult_0_l. rewrite <- (Zle_Qle 0). lia.
Qed.

(** C6.  The vector of a project holds exactly the 19 fixed names, in
    their order, and every value is a number that is not negative; no
    entry is missing. *)
Theorem extract_total (c : Counts) :
  index (extract c) = features
  /\ List.length (extract c) = 19%nat
  /\ Forall finite_nonneg (values (extract c))
  /\ Forall (fun v => isnull v = false) (values (extract c)).
Proof.
  split; [reflexivity|]. split; [reflexivity|].
  assert (H : Forall finite_nonneg (values (extract c))).
  { unfold extract, meta_features, values. simpl.
    repeat constructor; first [apply of_nat_nonneg | apply ratio_nonneg]. }
  split; [exact H|].
  eapply Forall_impl; [|exact H].
  intros v (a & -> & _). reflexivity.
Qed.

(** C4.  A ratio or an average over a count of 0 is 0: with no word,
    no sentence, no paragraph or no character, the features divided by
    that count are 0, and so are [num_exclms] and [percent_exclms] of a
    project with no exclamation mark and no sentence.  No value is NaN,
    and the extraction does not fail. *)
Theorem zero_denominator_is_zero (c : Counts) :
  (words c = 0%nat ->
     get (extract c) "percent_all_caps" = Some zero
     /\ get (extract c) "percent_apple_words" = Some zero)
  /\ (sentences c = 0%nat ->
        get (extract c) "percent_exclms" = Some zero
        /\ get (extract c) "avg_words_per_sent" = Some zero)
  /\ (paragraphs c = 0%nat ->
        get (extract c) "avg_sents_per_paragraph" = Some zero
        /\ get (extract c) "avg_words_per_paragraph" = Some zero)
  /\ (total_chars c = 0%nat ->
        get (extract c) "percent_bolded" = Some zero)
  /\ (exclamation_marks c = 0%nat -> sentences c = 0%nat ->
        get (extract c) "num_exclms" = Some zero
        /\ get (extract c) "percent_exclms" = Some zero)
  /\ Forall (fun v => isnull v = false) (values (extract c)).
Proof.
  repeat split;
    try (intros; unfold extract, meta_features;
         repeat match goal with H : _ = 0%nat |- _ => rewrite H; clear H end;
         reflexivity).
  unfold extract, meta_features, values. simpl.
  repeat constructor;
    first [ reflexivity
          | match goal with
            | |- isnull (ratio ?n ?d) = false =>
                destruct (ratio_nonneg n d) as (a & -> & _); reflexivity
            end ].
Qed.

Lemma zero_denominator_is_zero_witness :
  get (extract Scenario.no_text) "avg_words_per_sent" = Some zero
  /\ get (extract Scenario.no_text) "num_exclms" = Some zero
  /\ get (extract Scenario.no_text) "percent_exclms" = Some zero.
Proof.
  pose proof (zero_denominator_is_zero Scenario.no_text)
    as (_ & Hs & _ & _ & He & _).
  split; [exact (proj2 (Hs eq_refl))|].
  exact (He eq_refl eq_refl).
Defined.

End ExtractorFacts.

(** * Further properties of the notebooks *)

From Stdlib Require Import Permutation.

(** ** The average top project: errors and shape *)

Lemma index_combine (ks : list string) (vs : list float64) :
  List.length vs = List.length ks -> index (combine ks vs) = ks.
Proof.
  revert vs. induction ks as [|k ks IH]; intros [|v vs] H;
    try discriminate; [reflexivity|].
  simpl. f_equal. apply IH. simpl in H. lia.
Qed.

Lemma index_DataFrame_mean (columns : list string) (data : Frame) :
  index (DataFrame_mean columns data) = columns.
Proof.
  unfold DataFrame_mean. apply index_combine.
  now rewrite length_map, length_seq.
Qed.

(** X1.  The average of the top projects fails in one case only: a
    quantile outside [0, 1] is a ValueError.  For a quantile of [0, 1]
    every table, the empty one included, gives a vector over exactly the
    19 meta features, in their order. *)
Theorem avg_top_projects_fails_on_quantile_only (q : Qc) (df : list Row) :
  ((0 <= q)%Qc /\ (q <= 1)%Qc ->
     exists avg : Series,
       avg_top_projects q df = Ok avg /\ index avg = features)
  /\ (~ ((0 <= q)%Qc /\ (q <= 1)%Qc) ->
        avg_top_projects q df = Err ValueError).
Proof.
  rewrite <- check_percentile_iff. split; intro H.
  - rewrite avg_top_projects_of_top.
    unfold top_projects, quantile_limit, quantile. rewrite H.
    destruct (filter notnull (percent_funded df)); simpl;
      eexists; (split; [reflexivity | apply index_DataFrame_mean]).
  - apply not_true_is_false in H.
    rewrite avg_top_projects_of_top.
    unfold top_projects, quantile_limit, quantile. now rewrite H.
Qed.

Lemma avg_top_projects_fails_on_quantile_only_witness :
  (exists avg : Series,
      avg_top_projects q95 cohort1 = Ok avg /\ index avg = features)
  /\ avg_top_projects (Q2Qc (3 # 2)) cohort1 = Err ValueError.
Proof.
  split.
  - apply (proj1 (avg_top_projects_fails_on_quantile_only q95 cohort1)).
    split; discriminate.
  - apply (proj2 (avg_top_projects_fails_on_quantile_only (Q2Qc (3 # 2))
                    cohort1)).
    intros [_ H]. now apply H.
Defined.

Lemma fillna_zero_notnull (x : float64) : isnull (fillna zero x) = false.
Proof. now destruct x. Qed.

(** X2.  The cleaned frame of the top projects holds no missing value:
    every row has its 19 cells and none of them is NaN, and there are no
    more rows than projects in the table. *)
Theorem X_cleaned_complete (q : Qc) (df : list Row) (x : Frame) :
  X_cleaned q df = Ok x ->
  Forall (fun row => List.length row = List.length features
                     /\ Forall (fun v => isnull v = false) row) x
  /\ (List.length x <= List.length df)%nat.
Proof.
  unfold X_cleaned, X_nonnull, X, top_projects.
  destruct (quantile_limit q df) as [limit|e]; simpl; [|discriminate].
  intros [= <-]. split.
  - apply Forall_forall. intros row Hrow.
    apply in_map_iff in Hrow as (raw & <- & Hraw).
    apply filter_In in Hraw as [Hraw _].
    apply in_map_iff in Hraw as (r & <- & _).
    split.
    + now rewrite !length_map.
    + apply Forall_forall. intros v Hv.
      apply in_map_iff in Hv as (c & <- & _). apply fillna_zero_notnull.
  - rewrite length_map.
    eapply Nat.le_trans; [apply filter_length_le|].
    rewrite length_map. apply filter_length_le.
Qed.

Lemma X_cleaned_complete_witness :
  Forall (fun row => List.length row = List.length features
                     /\ Forall (fun v => isnull v = false) row)
    [map (fillna zero) (map (cell (project 200 100 0)) features)]
  /\ (1 <= List.length cohort1)%nat.
Proof.
  apply (X_cleaned_complete half cohort1).
  reflexivity.
Defined.

(** ** The scaler *)

Lemma standardize_row_length (row means scales : list float64) :
  List.length means = List.length row ->
  List.length scales = List.length row ->
  List.length (standardize_row row means scales) = List.length row.
Proof.
  revert means scales.
  induction row as [|x row IH]; intros [|m means] [|s scales] Hm Hs;
    try discriminate; [reflexivity|].
  simpl. f_equal. apply IH; simpl in *; lia.
Qed.

Lemma standardize_row_nth (row means scales : list float64) (j : nat) :
  List.length means = List.length row ->
  List.length scales = List.length row ->
  (j < List.length row)%nat ->
  nth j (standardize_row row means scales) NaN
  = standardize (nth j row NaN) (nth j means NaN) (nth j scales NaN).
Proof.
  revert means scales j.
  induction row as [|x row IH]; intros [|m means] [|s scales] j Hm Hs Hj;
    try discriminate; [simpl in Hj; lia|].
  destruct j as [|j]; [reflexivity|].
  simpl. apply IH; simpl in *; lia.
Qed.

Lemma existsb_isinf_finite (row : list float64) :
  forallb isfinite row = true -> existsb isinf row = false.
Proof.
  induction row as [|x row IH]; [reflexivity|].
  simpl. intro H. apply andb_true_iff in H as [Hx Hr].
  rewrite (IH Hr). now destruct x.
Qed.

Lemma scaler_transform_row (scaler : StandardScaler) (row : list float64) :
  existsb isinf row = false ->
  List.length (mean_ scaler) = List.length row ->
  List.length (scale_ scaler) = List.length row ->
  scaler_transform scaler [row]
  = Ok [standardize_row row (mean_ scaler) (scale_ scaler)].
Proof.
  intros Hinf Hm Hs. unfold scaler_transform. simpl.
  now rewrite Hinf, Hm, Hs, Nat.eqb_refl.
Qed.

Lemma pd_Series_Ok (data : list float64) (idx : list string) :
  List.length data = List.length idx ->
  pd_Series data idx = Ok (combine idx data).
Proof. intro H. unfold pd_Series. now rewrite H, Nat.eqb_refl. Qed.

Lemma pd_Series_Err (data : list float64) (idx : list string) :
  List.length data <> List.length idx ->
  pd_Series data idx = Err ValueError.
Proof.
  intro H. unfold pd_Series.
  now rewrite (proj2 (Nat.eqb_neq _ _) H).
Qed.

Lemma ravel_single (row : list float64) : ravel [row] = row.
Proof. unfold ravel. simpl. apply app_nil_r. Qed.




(** ** The coefficients of the classifier *)

Lemma length_concat_const {A : Type} (k : nat) (L : list (list A)) :
  Forall (fun l => List.length l = k) L ->
  List.length (List.concat L) = (List.length L * k)%nat.
Proof.
  induction 1 as [|l L Hl _ IH]; [reflexivity|].
  simpl. rewrite length_app, IH, Hl. reflexivity.
Qed.

Lemma nth_concat_const {A : Type} (k : nat) (L : list (list A))
    (i r : nat) (d : A) :
  Forall (fun l => List.length l = k) L ->
  (r < k)%nat ->
  nth (i * k + r) (List.concat L) d = nth r (nth i L []) d.
Proof.
  intros HL Hr. revert i. induction HL as [|l L Hl _ IH]; intro i.
  - simpl. destruct (i * k + r)%nat, i, r; reflexivity.
  - destruct i as [|i]; simpl.
    + apply app_nth1. lia.
    + rewrite app_nth2 by lia.
      replace (k + i * k + r - List.length l)%nat with (i * k + r)%nat by lia.
      apply IH.
Qed.

Lemma transpose_rows (m : Frame) (c : nat) :
  m <> [] ->
  Forall (fun row => List.length row = c) m ->
  List.length (transpose m) = c
  /\ Forall (fun col => List.length col = List.length m) (transpose m).
Proof.
  intros Hne Hm. unfold transpose.
  assert (Hc : ncols m = c).
  { destruct m as [|row m]; [now elim Hne|]. now inversion Hm. }
  rewrite Hc. split; [now rewrite length_map, length_seq|].
  apply Forall_forall. intros col Hcol.
  apply in_map_iff in Hcol as (j & <- & _).
  unfold column_at. now rewrite length_map.
Qed.

Lemma ravel_transpose_nth (m : Frame) (c i r : nat) :
  Forall (fun row => List.length row = c) m ->
  (i < c)%nat -> (r < List.length m)%nat ->
  nth (i * List.length m + r) (ravel (transpose m)) NaN
  = nth i (nth r m []) NaN.
Proof.
  intros Hm Hi Hr.
  assert (Hne : m <> []) by (intros ->; simpl in Hr; lia).
  destruct (transpose_rows m c Hne Hm) as [_ Hcols].
  unfold ravel. rewrite (nth_concat_const (List.length m)); trivial.
  unfold transpose.
  assert (Hc : ncols m = c).
  { destruct m as [|row m']; [now elim Hne|]. now inversion Hm. }
  rewrite Hc.
  rewrite (nth_indep _ [] (column_at 0 m))
    by now rewrite length_map, length_seq.
  rewrite (map_nth (fun j => column_at j m)), seq_nth by assumption.
  simpl. unfold column_at.
  rewrite (nth_indep _ NaN (nth i [] NaN)) by now rewrite length_map.
  now rewrite (map_nth (fun row => nth i row NaN)).
Qed.

(** X5.  [clf.coef_.T.ravel()] lists the coefficients column by
    column.  For a coefficient matrix of [k] class rows over [c] columns,
    with at least 19 entries, the rank given to the j-th meta feature is
    the weight of column [j / k] in class row [j mod k]: it is the weight
    of column j only for a single class row.  A matrix of fewer than 19
    entries is a ValueError. *)
Theorem feature_ranks_column_major (coef_ : Frame) (c : nat) :
  coef_ <> [] ->
  Forall (fun row => List.length row = c) coef_ ->
  ((List.length features <= c * List.length coef_)%nat ->
     exists ranks : Series,
       feature_ranks coef_ = Ok ranks
       /\ index ranks = features
       /\ forall j : nat,
            (j < List.length features)%nat ->
            get ranks (nth j features "")
            = Some (nth (j / List.length coef_)
                      (nth (j mod List.length coef_) coef_ []) NaN))
  /\ ((c * List.length coef_ < List.length features)%nat ->
        feature_ranks coef_ = Err ValueError).
Proof.
  intros Hne Hm.
  destruct (transpose_rows coef_ c Hne Hm) as [Hlen Hcols].
  assert (Hravel : List.length (ravel (transpose coef_))
                   = (c * List.length coef_)%nat).
  { unfold ravel. now rewrite (length_concat_const _ _ Hcols), Hlen. }
  assert (Hk : List.length coef_ <> 0%nat)
    by (destruct coef_; [now elim Hne | discriminate]).
  split; intro Hsize; unfold feature_ranks.
  - assert (Hfirst : List.length (firstn (List.length features)
                                    (ravel (transpose coef_)))
                     = List.length features)
      by (rewrite length_firstn; lia).
    rewrite (pd_Series_Ok _ _ Hfirst). eexists.
    split; [reflexivity|]. split; [now apply index_combine|].
    intros j Hj.
    rewrite (get_combine_nth features _ j eq_refl Hfirst Hj).
    rewrite nth_firstn_lt by assumption. f_equal.
    rewrite (Nat.div_mod_eq j (List.length coef_)) at 1.
    rewrite (Nat.mul_comm (List.length coef_)).
    apply (ravel_transpose_nth coef_ c); trivial.
    + apply Nat.Div0.div_lt_upper_bound. lia.
    + now apply Nat.mod_upper_bound.
  - apply pd_Series_Err. rewrite length_firstn. lia.
Qed.

Lemma feature_ranks_column_major_witness :
  (exists ranks : Series,
      feature_ranks Examples.coef_two_classes = Ok ranks
      /\ index ranks = features
      /\ forall j : nat,
           (j < List.length features)%nat ->
           get ranks (nth j features "")
           = Some (nth (j / 2) (nth (j mod 2) Examples.coef_two_classes [])
                     NaN))
  /\ feature_ranks [[of_Z 1; of_Z 2]] = Err ValueError.
Proof.
  split.
  - apply (proj1 (feature_ranks_column_major Examples.coef_two_classes 10
                    ltac:(discriminate)
                    ltac:(repeat constructor))).
    simpl. lia.
  - apply (proj2 (feature_ranks_column_major [[of_Z 1; of_Z 2]] 2
                    ltac:(discriminate)
                    ltac:(repeat constructor))).
    simpl. lia.
Defined.

(** ** The design matrix of the training notebook *)

Lemma nth_map_combine_app (a b : Frame) (i : nat) :
  List.length a = List.length b ->
  nth i (map (fun ab => fst ab ++ snd ab) (combine a b)) []
  = nth i a [] ++ nth i b [].
Proof.
  revert b i. induction a as [|x a IH]; intros [|y b] i H;
    try discriminate.
  - now destruct i.
  - destruct i as [|i]; [reflexivity|]. simpl. apply IH.
    simpl in H. lia.
Qed.

(** X6.  The design matrix is built only from two blocks of as many
    rows: it has that many rows, and each row is the row of the
    standardized meta features followed by the row of the n-grams, so
    that its width is the sum of the two widths.  Blocks of different
    heights are a ValueError. *)
Theorem X_full_shape (X_std_sparse X_ngrams : Frame) :
  (List.length X_std_sparse = List.length X_ngrams ->
     exists full : Frame,
       X_full X_std_sparse X_ngrams = Ok full
       /\ List.length full = List.length X_std_sparse
       /\ forall i : nat,
            nth i full [] = nth i X_std_sparse [] ++ nth i X_ngrams []
            /\ List.length (nth i full [])
               = (List.length (nth i X_std_sparse [])
                  + List.length (nth i X_ngrams []))%nat)
  /\ (List.length X_std_sparse <> List.length X_ngrams ->
        X_full X_std_sparse X_ngrams = Err ValueError).
Proof.
  unfold X_full, hstack. split; intro H.
  - rewrite H, Nat.eqb_refl. eexists. split; [reflexivity|].
    split.
    + rewrite length_map, length_combine, H. apply Nat.min_id.
    + intro i. rewrite (nth_map_combine_app _ _ i H).
      split; [reflexivity | apply length_app].
  - now rewrite (proj2 (Nat.eqb_neq _ _) H).
Qed.

Lemma X_full_shape_witness :
  (exists full : Frame,
      X_full [values demo_std] [demo_ngrams] = Ok full
      /\ List.length full = 1%nat
      /\ forall i : nat,
           nth i full [] = nth i [values demo_std] [] ++ nth i [demo_ngrams] []
           /\ List.length (nth i full [])
              = (List.length (nth i [values demo_std] [])
                 + List.length (nth i [demo_ngrams] []))%nat)
  /\ X_full [values demo_std] [] = Err ValueError.
Proof.
  split.
  - apply (proj1 (X_full_shape [values demo_std] [demo_ngrams])).
    reflexivity.
  - apply (proj2 (X_full_shape [values demo_std] [])).
    discriminate.
Defined.

(** ** The number of iterations *)

(** X7.  The number of iterations is the least number of passes over
    the training set that reaches a million updates: with [n] rows,
    [n] times the number is at least 10^6, and one pass less falls
    short.  An empty training set is a ZeroDivisionError. *)
Theorem SGD_iterations_least (n : nat) :
  (n <> 0%nat ->
     exists passes : Z,
       Training.SGD_iterations n = Training.Value passes
       /\ (10 ^ 6 <= passes * Z.of_nat n)%Z
       /\ ((passes - 1) * Z.of_nat n < 10 ^ 6)%Z)
  /\ Training.SGD_iterations 0 = Training.ZeroDivisionError.
Proof.
  split; [|reflexivity].
  intro Hn. destruct n as [|n]; [now elim Hn|].
  unfold Training.SGD_iterations.
  set (len := Z.of_nat (S n)).
  assert (Hlen : (0 < len)%Z) by (unfold len; lia).
  assert (HlenQ : (0 < inject_Z len)%Q) by (rewrite <- (Zlt_Qlt 0); exact Hlen).
  set (x := (inject_Z (10 ^ 6) / inject_Z len)%Q).
  assert (Hx : (x * inject_Z len == inject_Z (10 ^ 6))%Q).
  { unfold x. field. intro E. rewrite E in HlenQ. now apply Qlt_irrefl in HlenQ. }
  eexists. split; [reflexivity|]. split.
  - rewrite Zle_Qle, inject_Z_mult, <- Hx.
    apply Qmult_le_compat_r; [apply Qle_ceiling | now apply Qlt_le_weak].
  - rewrite Zlt_Qlt, inject_Z_mult, <- Hx.
    apply Qmult_lt_compat_r; [assumption | apply Qceiling_lt].
Qed.

Lemma SGD_iterations_least_witness :
  exists passes : Z,
    Training.SGD_iterations 1000 = Training.Value passes
    /\ (10 ^ 6 <= passes * Z.of_nat 1000)%Z
    /\ ((passes - 1) * Z.of_nat 1000 < 10 ^ 6)%Z.
Proof.
  apply (proj1 (SGD_iterations_least 1000)).
  discriminate.
Defined.

(** ** The target of the training set *)

Lemma traverse_Ok {A B : Type} (f : A -> result B) (g : A -> B)
    (l : list A) :
  (forall a, In a l -> f a = Ok (g a)) ->
  traverse f l = Ok (map g l).
Proof.
  induction l as [|a l IH]; intro H; [reflexivity|].
  simpl. rewrite (H a (or_introl eq_refl)). simpl.
  rewrite IH by (intros b Hb; apply H; now right). reflexivity.
Qed.

Lemma existsb_false_all {A : Type} (f : A -> bool) (l : list A) (a : A) :
  existsb f l = false -> In a l -> f a = false.
Proof.
  intros H Ha. destruct (f a) eqn:E; [|reflexivity].
  assert (existsb f l = true) by (apply existsb_exists; eauto).
  congruence.
Qed.

(** X8.  Encoding the target never fails, gives one code per project,
    and every code points back to its label among the classes.  When
    some project is unfunded, funded is encoded 1 and unfunded 0; when
    every project is funded, funded is encoded 0. *)
Theorem y_enc_codes (y : list bool) :
  exists codes : list nat,
    Training.y_enc y = Ok codes
    /\ map (fun code => nth code (Training.np_unique y) false) codes = y
    /\ (existsb negb y = true ->
          codes = map (fun b : bool => if b then 1%nat else 0%nat) y)
    /\ (existsb negb y = false -> codes = map (fun _ => 0%nat) y).
Proof.
  unfold Training.y_enc, Training.transform, Training.np_unique.
  destruct (existsb negb y) eqn:Hf, (existsb (fun b => b) y) eqn:Ht; simpl app.
  - exists (map (fun b : bool => if b then 1%nat else 0%nat) y).
    split; [|split; [|split]]; try discriminate; try reflexivity.
    + apply traverse_Ok. now intros [|] _.
    + rewrite map_map. rewrite <- (map_id y) at 2.
      apply map_ext. now intros [|].
  - exists (map (fun _ => 0%nat) y).
    assert (Hall : forall b, In b y -> b = false).
    { intros b Hb. apply (existsb_false_all _ _ _ Ht Hb). }
    split; [|split; [|split]]; try discriminate.
    + apply traverse_Ok. intros b Hb. now rewrite (Hall b Hb).
    + rewrite map_map. rewrite <- (map_id y) at 2.
      apply map_ext_in. intros b Hb. now rewrite (Hall b Hb).
    + intros _. apply map_ext_in. intros b Hb. now rewrite (Hall b Hb).
  - exists (map (fun _ => 0%nat) y).
    assert (Hall : forall b, In b y -> b = true).
    { intros b Hb. generalize (existsb_false_all _ _ _ Hf Hb).
      now destruct b. }
    split; [|split; [|split]]; try discriminate; try reflexivity.
    + apply traverse_Ok. intros b Hb. now rewrite (Hall b Hb).
    + rewrite map_map. rewrite <- (map_id y) at 2.
      apply map_ext_in. intros b Hb. now rewrite (Hall b Hb).
  - exists [].
    assert (Hy : y = []).
    { destruct y as [|[|] y]; [reflexivity| |]; simpl in *; discriminate. }
    subst y. repeat split; reflexivity.
Qed.

Lemma enumerate_from_nth_error {A : Type} (l : list A) (b : nat)
    (ir : nat * A) :
  In ir (enumerate_from b l) ->
  (b <= fst ir)%nat /\ nth_error l (fst ir - b) = Some (snd ir).
Proof.
  revert b. induction l as [|a l IH]; intros b H; [contradiction|].
  simpl in H. destruct H as [<-|H].
  - simpl. split; [lia|]. now rewrite Nat.sub_diag.
  - destruct (IH (S b) H) as [Hle Hnth]. split; [lia|].
    replace (fst ir - b)%nat with (S (fst ir - S b)) by lia.
    exact Hnth.
Qed.

Lemma enumerate_from_map {A B : Type} (f : A -> B) (l : list A) (b : nat) :
  enumerate_from b (map f l)
  = map (fun ia => (fst ia, f (snd ia))) (enumerate_from b l).
Proof.
  revert b. induction l as [|a l IH]; intro b; [reflexivity|].
  simpl. now rewrite IH.
Qed.

Lemma loc_funded_enumerated (df : list Training.Labelled)
    (sel : list (nat * Training.Labelled)) :
  (forall ip, In ip sel -> nth_error df (fst ip) = Some (snd ip)) ->
  Training.loc_funded df (map fst sel)
  = Ok (map (fun ip => Training.funded (snd ip)) sel).
Proof.
  unfold Training.loc_funded.
  induction sel as [|ip sel IH]; intro H; [reflexivity|].
  simpl. rewrite (H ip (or_introl eq_refl)). simpl.
  rewrite IH by (intros ip' H'; apply H; now right). reflexivity.
Qed.

(** X9.  The target stays aligned with the cleaned features: the
    selection of the 'funded' column by the index of the cleaned frame
    never fails, and it lists, in order, the flags of exactly the
    projects that have at least one meta feature; the i-th flag belongs
    to the project whose cleaned features are the i-th row. *)
Theorem y_aligned (section1_df_full : list Training.Labelled) :
  let kept := filter (fun p => negb (all_missing (Training.project p)))
                section1_df_full in
  Training.y section1_df_full = Ok (map Training.funded kept)
  /\ map snd (Training.X_cleaned section1_df_full)
     = map (fun p => map (fillna zero)
                       (map (cell (Training.project p)) features)) kept
  /\ Forall (fun ir => exists p,
                 nth_error section1_df_full (fst ir) = Some p
                 /\ snd ir = map (fillna zero)
                               (map (cell (Training.project p)) features))
       (Training.X_cleaned section1_df_full).
Proof.
  intro kept.
  set (cells := fun p => map (cell (Training.project p)) features).
  assert (HX : Training.X_nonnull section1_df_full
               = map (fun ip => (fst ip, cells (snd ip)))
                   (filter (fun ip => negb (all_missing (Training.project (snd ip))))
                      (enumerate_from 0 section1_df_full))).
  { unfold Training.X_nonnull, Training.X.
    rewrite (enumerate_from_map cells), filter_map_swap. f_equal;
      try (apply filter_ext; intro ip; cbn [snd]; unfold cells;
           now rewrite isnull_all_cells). }
  assert (Hkept : forall (l : list Training.Labelled) (b : nat),
             map snd (filter (fun ip => negb (all_missing (Training.project (snd ip))))
                        (enumerate_from b l))
             = filter (fun p => negb (all_missing (Training.project p))) l).
  { induction l as [|p l IH]; intro b; [reflexivity|].
    simpl. destruct (negb (all_missing (Training.project p))); simpl;
      now rewrite IH. }
  assert (Hin : forall ip,
             In ip (filter (fun ip => negb (all_missing (Training.project (snd ip))))
                      (enumerate_from 0 section1_df_full)) ->
             nth_error section1_df_full (fst ip) = Some (snd ip)).
  { intros ip Hip. apply filter_In in Hip as [Hip _].
    apply enumerate_from_nth_error in Hip as [_ Hip].
    now rewrite Nat.sub_0_r in Hip. }
  split; [|split].
  - unfold Training.y, Training.X_cleaned.
    rewrite HX, !map_map. cbn [fst].
    unfold kept. rewrite <- (Hkept section1_df_full 0%nat), map_map.
    change (fun x : nat * Training.Labelled => fst x)
      with (@fst nat Training.Labelled).
    now apply loc_funded_enumerated.
  - unfold Training.X_cleaned. rewrite HX, !map_map. cbn [snd].
    unfold kept. rewrite <- (Hkept section1_df_full 0%nat), map_map.
    reflexivity.
  - unfold Training.X_cleaned. rewrite HX, map_map. cbn [fst snd].
    apply Forall_forall. intros ir Hir.
    apply in_map_iff in Hir as (ip & <- & Hip).
    exists (snd ip). split; [now apply Hin | reflexivity].
Qed.

(** ** The tidy table *)

(** X10.  Melting loses nothing: for two scores over the same distinct
    labels, the tidy table has two rows per label, and the bar of every
    label and variable is the score of that label in that vector. *)
Theorem tidy_keeps_every_score (your top : Series) :
  is_unique (index your) = true -> index top = index your ->
  exists m : list (string * float64 * float64),
    messy your top = Ok m
    /\ List.length (tidy m) = (2 * List.length your)%nat
    /\ forall k : string,
         In k (index your) ->
         bar (tidy m) k "Your project" = reindex your k
         /\ bar (tidy m) k "Top projects" = reindex top k.
Proof.
  intros Hu Hidx. rewrite (messy_same_index your top Hu Hidx).
  eexists. split; [reflexivity|]. split.
  - unfold tidy, index. rewrite length_app, !length_map. lia.
  - intros k Hk. now apply bar_tidy.
Qed.

Lemma tidy_keeps_every_score_witness :
  exists m : list (string * float64 * float64),
    messy demo_std demo_top_std = Ok m
    /\ List.length (tidy m) = (2 * List.length demo_std)%nat
    /\ forall k : string,
         In k (index demo_std) ->
         bar (tidy m) k "Your project" = reindex demo_std k
         /\ bar (tidy m) k "Top projects" = reindex demo_top_std k.
Proof.
  apply (tidy_keeps_every_score demo_std demo_top_std); reflexivity.
Defined.

(** ** The order of float64 values and the sort behind the quantile *)

Lemma leb_Fin (a b : Qc) : Float.leb (Fin a) (Fin b) = true <-> (a <= b)%Qc.
Proof.
  simpl. rewrite Qcle_alt.
  destruct (a ?= b)%Qc; split; intro H; try reflexivity; try discriminate.
  now elim H.
Qed.

Lemma leb_total (x y : float64) :
  notnull x = true -> notnull y = true ->
  Float.leb x y = false -> Float.leb y x = true.
Proof.
  destruct x as [a| | |], y as [b| | |]; try reflexivity; try discriminate.
  intros _ _ H. apply leb_Fin.
  destruct (Qclt_le_dec a b) as [Hlt|Hle]; [|assumption].
  apply Qclt_le_weak, leb_Fin in Hlt. congruence.
Qed.

Lemma leb_trans (x y z : float64) :
  Float.leb x y = true -> Float.leb y z = true -> Float.leb x z = true.
Proof.
  destruct x as [a| | |], y as [b| | |], z as [c| | |];
    try reflexivity; try discriminate.
  rewrite !leb_Fin. apply Qcle_trans.
Qed.

Lemma leb_antisym (x y : float64) :
  Float.leb x y = true -> Float.leb y x = true -> x = y.
Proof.
  destruct x as [a| | |], y as [b| | |];
    try reflexivity; try discriminate.
  rewrite !leb_Fin. intros H1 H2. f_equal. now apply Qcle_antisym.
Qed.

Lemma insert_sorted_In (x : float64) (l : list float64) (y : float64) :
  In y (insert_sorted x l) <-> y = x \/ In y l.
Proof.
  induction l as [|z l IH]; simpl.
  - intuition auto.
  - destruct (Float.leb x z); simpl; rewrite ?IH; intuition auto.
Qed.

Lemma sort_In (l : list float64) (y : float64) : In y (sort l) <-> In y l.
Proof.
  induction l as [|x l IH]; [reflexivity|].
  simpl. rewrite insert_sorted_In, IH. intuition auto.
Qed.

Lemma insert_sorted_comm (x y : float64) (l : list float64) :
  notnull x = true -> notnull y = true ->
  Forall (fun z => notnull z = true) l ->
  insert_sorted x (insert_sorted y l) = insert_sorted y (insert_sorted x l).
Proof.
  intros Hx Hy Hl. induction Hl as [|z l Hz Hl IH]; simpl.
  - destruct (Float.leb x y) eqn:Exy, (Float.leb y x) eqn:Eyx;
      try reflexivity.
    + now rewrite (leb_antisym x y Exy Eyx).
    + apply (leb_total x y Hx Hy) in Exy. congruence.
  - destruct (Float.leb y z) eqn:Eyz, (Float.leb x z) eqn:Exz; simpl;
      rewrite ?Eyz, ?Exz.
    + destruct (Float.leb x y) eqn:Exy, (Float.leb y x) eqn:Eyx;
        try reflexivity.
      * now rewrite (leb_antisym x y Exy Eyx).
      * apply (leb_total x y Hx Hy) in Exy. congruence.
    + destruct (Float.leb x y) eqn:Exy.
      * rewrite (leb_trans x y z Exy Eyz) in Exz. discriminate.
      * reflexivity.
    + destruct (Float.leb y x) eqn:Eyx.
      * rewrite (leb_trans y x z Eyx Exz) in Eyz. discriminate.
      * reflexivity.
    + now rewrite IH.
Qed.

Lemma sort_Permutation (l l' : list float64) :
  Permutation l l' -> Forall (fun z => notnull z = true) l ->
  sort l = sort l'.
Proof.
  induction 1 as [|x l l' Hp IH|x y l|l l' l'' Hp1 IH1 Hp2 IH2]; intro Hl.
  - reflexivity.
  - simpl. inversion Hl; subst. now rewrite IH.
  - simpl. inversion Hl as [|? ? Hy Hl']; subst.
    inversion Hl' as [|? ? Hx Hl'']; subst.
    apply insert_sorted_comm; trivial.
    apply Forall_forall. intros z Hz. apply (proj1 (sort_In l z)) in Hz.
    rewrite Forall_forall in Hl''. now apply Hl''.
  - rewrite IH1 by assumption. apply IH2.
    apply Forall_forall. intros z Hz.
    rewrite Forall_forall in Hl. apply Hl.
    now apply (Permutation_in z (Permutation_sym Hp1)).
Qed.

(** ** The order of the rows of the table *)

Lemma Permutation_filter {A : Type} (f : A -> bool) (l l' : list A) :
  Permutation l l' -> Permutation (filter f l) (filter f l').
Proof.
  induction 1 as [|x l l' Hp IH|x y l|l l' l'' Hp1 IH1 Hp2 IH2]; simpl.
  - constructor.
  - destruct (f x); [now constructor | assumption].
  - destruct (f x), (f y); try apply Permutation_refl. constructor.
  - now apply (Permutation_trans IH1).
Qed.

Lemma existsb_isnull_notnull (l : list float64) :
  Forall (fun z => notnull z = true) l -> existsb isnull l = false.
Proof.
  induction 1 as [|x l Hx _ IH]; [reflexivity|].
  simpl. rewrite IH. unfold notnull in Hx.
  apply negb_true_iff in Hx. now rewrite Hx.
Qed.

Lemma np_percentile_Permutation (a a' : list float64) (q : Qc) :
  Permutation a a' -> Forall (fun z => notnull z = true) a ->
  np_percentile a q = np_percentile a' q.
Proof.
  intros Hp Hnn.
  assert (Hnn' : Forall (fun z => notnull z = true) a').
  { apply Forall_forall. intros z Hz. rewrite Forall_forall in Hnn.
    apply Hnn. now apply (Permutation_in z (Permutation_sym Hp)). }
  unfold np_percentile.
  rewrite (existsb_isnull_notnull a Hnn), (existsb_isnull_notnull a' Hnn').
  now rewrite (sort_Permutation a a' Hp Hnn).
Qed.

Lemma quantile_Permutation (s s' : list float64) (q : Qc) :
  Permutation s s' -> quantile s q = quantile s' q.
Proof.
  intro Hp. unfold quantile.
  destruct (check_percentile q); [|reflexivity].
  assert (Hf := Permutation_filter notnull s s' Hp).
  assert (Hnn : Forall (fun z => notnull z = true) (filter notnull s)).
  { apply Forall_forall. intros z Hz. now apply filter_In in Hz. }
  assert (Hperc := np_percentile_Permutation _ _ q Hf Hnn).
  destruct (filter notnull s) as [|x v] eqn:E,
           (filter notnull s') as [|x' v'] eqn:E'.
  - reflexivity.
  - now apply Permutation_nil in Hf.
  - apply Permutation_sym in Hf. now apply Permutation_nil in Hf.
  - now rewrite Hperc.
Qed.

(** X12.  The order of the rows of the table does not matter to the
    cut: two tables that hold the same projects in different orders have
    the same threshold, fail alike, and select the same projects and the
    same cleaned rows, each as often, in the order of their table; the
    projects selected from one table are the projects of the other whose
    ratio reaches the threshold of the other. *)
Theorem top_projects_row_order (q : Qc) (df df' : list Row) :
  Permutation df df' ->
  quantile_limit q df = quantile_limit q df'
  /\ (forall e : exn,
        avg_top_projects q df = Err e <-> avg_top_projects q df' = Err e)
  /\ (forall top : list Row,
        top_projects q df = Ok top ->
        exists top' : list Row,
          top_projects q df' = Ok top' /\ Permutation top top')
  /\ (forall (top : list Row) (limit : float64) (r : Row),
        top_projects q df = Ok top ->
        quantile_limit q df' = Ok limit ->
        In r top
        <-> In r df' /\ (percent_funded_of r >=? limit)%float = true)
  /\ (forall x : Frame,
        X_cleaned q df = Ok x ->
        exists x' : Frame, X_cleaned q df' = Ok x' /\ Permutation x x').
Proof.
  intro Hp.
  assert (Hq : quantile_limit q df = quantile_limit q df').
  { unfold quantile_limit, percent_funded.
    apply quantile_Permutation. now apply Permutation_map. }
  split; [exact Hq|].
  split; [|split; [|split]].
  - intro e. rewrite !avg_top_projects_of_top. unfold top_projects.
    rewrite Hq. now destruct (quantile_limit q df').
  - intros top. unfold top_projects. rewrite Hq.
    destruct (quantile_limit q df') as [limit|e]; [|discriminate].
    simpl. intros [= <-]. eexists. split; [reflexivity|].
    now apply Permutation_filter.
  - intros top limit r. unfold top_projects. rewrite Hq.
    intros Htop Hlimit. rewrite Hlimit in Htop. simpl in Htop.
    injection Htop as <-. rewrite filter_In.
    split; intros [Hin Hge]; (split; [|exact Hge]).
    + now apply (Permutation_in r Hp).
    + now apply (Permutation_in r (Permutation_sym Hp)).
  - intros x. unfold X_cleaned, X_nonnull, X, top_projects. rewrite Hq.
    destruct (quantile_limit q df') as [limit|e]; [|discriminate].
    simpl. intros [= <-]. eexists. split; [reflexivity|].
    apply Permutation_map, Permutation_filter, Permutation_map.
    now apply Permutation_filter.
Qed.

Lemma top_projects_row_order_witness :
  quantile_limit half cohort_zero_goal
  = quantile_limit half (rev cohort_zero_goal)
  /\ (exists top' : list Row,
        top_projects half (rev cohort_zero_goal) = Ok top'
        /\ Permutation [project 200 100 0; project 300 0 5] top').
Proof.
  destruct (top_projects_row_order half cohort_zero_goal
              (rev cohort_zero_goal) (Permutation_rev cohort_zero_goal))
    as (Hq & _ & Htop & _ & _).
  split; [exact Hq|].
  apply Htop. by_evaluation.
Defined.

Lemma y_enc_codes_witness :
  Training.y_enc [true; false; true] = Ok [1; 0; 1]%nat
  /\ Training.y_enc [true; true] = Ok [0; 0]%nat.
Proof.
  split.
  - destruct (y_enc_codes [true; false; true]) as (codes & -> & _ & H & _).
    f_equal. apply H. reflexivity.
  - destruct (y_enc_codes [true; true]) as (codes & -> & _ & _ & H).
    f_equal. apply H. reflexivity.
Defined.

(** ** From the raw meta features to the plot *)

Lemma suggestions_covered (std top_std ranks : Series) (subset : list string) :
  is_unique (index std) = true ->
  is_unique (index top_std) = true ->
  is_unique (index ranks) = true ->
  is_unique subset = true ->
  forallb (fun k => has_label std k && has_label top_std k && has_label ranks k)
    subset = true ->
  List.length subset = List.length labels ->
  suggestions std top_std ranks subset
  = Ok (map (fun lk =>
               (fst lk,
                (reindex std (snd lk) * reindex ranks (snd lk))%float,
                (reindex top_std (snd lk) * reindex ranks (snd lk))%float))
          (combine labels subset)).
Proof.
  intros Hf Ht Hr Hu Hall Hlen.
  apply forallb_and3 in Hall as (Hlf & Hlt & Hlr).
  unfold suggestions.
  change (top_project_score top_std ranks subset)
    with (user_project_score top_std ranks subset).
  rewrite (user_project_score_covered std ranks subset
             Hf Hr (forallb_and2 _ _ _ Hlf Hlr)).
  rewrite (user_project_score_covered top_std ranks subset
             Ht Hr (forallb_and2 _ _ _ Hlt Hlr)).
  unfold bind.
  rewrite assemble_positional; trivial.
  - f_equal. unfold values. rewrite !map_map.
    exact (combine3_map labels subset
             (fun k => (reindex std k * reindex ranks k)%float)
             (fun k => (reindex top_std k * reindex ranks k)%float)).
  - unfold index. rewrite map_map. simpl. apply map_id.
  - unfold index. rewrite map_map. simpl. apply map_id.
Qed.

Lemma has_label_features (s : Series) (k : string) :
  index s = features -> existsb (String.eqb k) features = true ->
  has_label s k = true.
Proof. intros Hidx Hk. unfold has_label. now rewrite Hidx. Qed.

Lemma predictive_features_In (k : string) :
  In k predictive_features -> In k features.
Proof.
  simpl. intro Hk.
  repeat (destruct Hk as [<-|Hk]; [tauto|]). contradiction.
Qed.

(** Over three vectors indexed by the 19 meta features, cells 11 to 13
    raise nothing. *)
Lemma suggestions_over_features (std top_std ranks : Series) :
  index std = features -> index top_std = features ->
  index ranks = features ->
  suggestions std top_std ranks predictive_features
  = Ok (map (fun lk =>
               (fst lk,
                (reindex std (snd lk) * reindex ranks (snd lk))%float,
                (reindex top_std (snd lk) * reindex ranks (snd lk))%float))
          (combine labels predictive_features)).
Proof.
  intros Hstd Htop Hranks. apply suggestions_covered.
  - now rewrite Hstd.
  - now rewrite Htop.
  - now rewrite Hranks.
  - reflexivity.
  - apply forallb_forall. intros k Hk.
    assert (Hkf : existsb (String.eqb k) features = true).
    { simpl in Hk.
      repeat (destruct Hk as [<-|Hk]; [reflexivity|]). contradiction. }
    now rewrite !has_label_features.
  - reflexivity.
Qed.

Lemma pd_Series_outcome (data : list float64) (idx : list string) :
  match pd_Series data idx with
  | Ok s => index s = idx
  | Err e => e = ValueError
  end.
Proof.
  unfold pd_Series.
  destruct (Nat.eqb (List.length data) (List.length idx)) eqn:E;
    [|reflexivity].
  apply Nat.eqb_eq in E. now apply index_combine.
Qed.

Lemma scaler_transform_only_ValueError (scaler : StandardScaler) (X : Frame)
    (e : exn) :
  scaler_transform scaler X = Err e -> e = ValueError.
Proof.
  unfold scaler_transform.
  destruct (existsb (existsb isinf) X); [now intros [= <-]|].
  destruct (_ && _); [discriminate | now intros [= <-]].
Qed.

Lemma avg_top_projects_only_ValueError (q : Qc) (df : list Row) (e : exn) :
  avg_top_projects q df = Err e -> e = ValueError.
Proof.
  rewrite avg_top_projects_of_top.
  unfold top_projects, quantile_limit, quantile.
  destruct (check_percentile q); [|now intros [= <-]].
  destruct (filter notnull (percent_funded df)); discriminate.
Qed.

Lemma top_project_std_outcome (scaler : StandardScaler) (q : Qc)
    (df : list Row) :
  match top_project_std scaler q df with
  | Ok top_std => index top_std = features
  | Err e => e = ValueError
  end.
Proof.
  unfold top_project_std.
  destruct (avg_top_projects q df) as [avg|e] eqn:Eavg; simpl;
    [|now apply avg_top_projects_only_ValueError in Eavg].
  destruct (scaler_transform scaler [values avg]) as [z|e] eqn:Ez; simpl;
    [|now apply scaler_transform_only_ValueError in Ez].
  apply pd_Series_outcome.
Qed.

Lemma feature_vector_std_outcome (scaler : StandardScaler)
    (meta_features : list float64) :
  match feature_vector_std scaler meta_features with
  | Ok std => index std = features
  | Err e => e = ValueError
  end.
Proof.
  unfold feature_vector_std.
  destruct (scaler_transform scaler [meta_features]) as [z|e] eqn:Ez; simpl;
    [|now apply scaler_transform_only_ValueError in Ez].
  apply pd_Series_outcome.
Qed.

Lemma feature_vector_std_explicit (scaler : StandardScaler)
    (meta_features : list float64) :
  List.length (mean_ scaler) = List.length features ->
  List.length (scale_ scaler) = List.length features ->
  List.length meta_features = List.length features ->
  existsb isinf meta_features = false ->
  feature_vector_std scaler meta_features
  = Ok (combine features
          (standardize_row meta_features (mean_ scaler) (scale_ scaler))).
Proof.
  intros Hm Hs Hlen Hinf. unfold feature_vector_std.
  rewrite scaler_transform_row by congruence.
  unfold bind. rewrite ravel_single. apply pd_Series_Ok.
  rewrite standardize_row_length; congruence.
Qed.

Lemma feature_ranks_row (w : list float64) :
  feature_ranks [w] = pd_Series (firstn (List.length features) w) features.
Proof. unfold feature_ranks. now rewrite ravel_transpose_row. Qed.

Lemma fitted_on_features_spec (scaler : StandardScaler) :
  fitted_on_features scaler = true ->
  List.length (mean_ scaler) = List.length features
  /\ List.length (scale_ scaler) = List.length features
  /\ forallb isfinite (mean_ scaler) = true
  /\ forallb (fun s => isfinite s && negb (s ==? zero)%float) (scale_ scaler)
     = true.
Proof.
  unfold fitted_on_features. intro H.
  apply andb_true_iff in H as [H H4].
  apply andb_true_iff in H as [H H3].
  apply andb_true_iff in H as [H1 H2].
  apply Nat.eqb_eq in H1, H2. auto.
Qed.

(** X13.  From the table and the raw meta features to the plot, the
    notebook can fail in one way only, with a ValueError: no label is
    ever missing.  It does fail for a quantile outside [0, 1], for a
    project with an infinite meta feature or with another number of meta
    features than 19, and for fewer than 19 coefficients.  It does not fail for a quantile of [0, 1], a scaler
    with 19 means and scales, an average top project of finite values, a
    project of 19 finite meta features and at least 19 coefficients; the
    plot then has one row per predictive feature under the six labels, in
    their order, each with the product of the standardized value and the
    coefficient as the score of the project and of the top projects. *)
Theorem building_suggestions_graph_outcome (scaler : StandardScaler)
    (coef_ : Frame) (q : Qc) (df : list Row) (meta_features : list float64) :
  (building_suggestions_graph scaler coef_ q df meta_features = Err ValueError
   \/ exists (top_std std ranks : Series)
             (rows : list (string * float64 * float64)),
        top_project_std scaler q df = Ok top_std
        /\ feature_vector_std scaler meta_features = Ok std
        /\ feature_ranks coef_ = Ok ranks
        /\ building_suggestions_graph scaler coef_ q df meta_features = Ok rows
        /\ map (fun row => fst (fst row)) rows = labels
        /\ map (fun row => snd (fst row)) rows
           = map (fun k => (reindex std k * reindex ranks k)%float)
               predictive_features
        /\ map (fun row => snd row) rows
           = map (fun k => (reindex top_std k * reindex ranks k)%float)
               predictive_features)
  /\ (~ ((0 <= q)%Qc /\ (q <= 1)%Qc)
      \/ existsb isinf meta_features = true
      \/ List.length meta_features <> List.length features
      \/ (List.length (ravel (transpose coef_)) < List.length features)%nat ->
      building_suggestions_graph scaler coef_ q df meta_features
      = Err ValueError)
  /\ ((0 <= q)%Qc /\ (q <= 1)%Qc ->
      List.length (mean_ scaler) = List.length features ->
      List.length (scale_ scaler) = List.length features ->
      (exists avg : Series,
          avg_top_projects q df = Ok avg
          /\ forallb isfinite (values avg) = true) ->
      List.length meta_features = List.length features ->
      forallb isfinite meta_features = true ->
      (List.length features <= List.length (ravel (transpose coef_)))%nat ->
      exists rows : list (string * float64 * float64),
        building_suggestions_graph scaler coef_ q df meta_features = Ok rows).
Proof.
  assert (Hout :
            building_suggestions_graph scaler coef_ q df meta_features
            = Err ValueError
            \/ exists (top_std std ranks : Series)
                      (rows : list (string * float64 * float64)),
                 top_project_std scaler q df = Ok top_std
                 /\ feature_vector_std scaler meta_features = Ok std
                 /\ feature_ranks coef_ = Ok ranks
                 /\ building_suggestions_graph scaler coef_ q df meta_features
                    = Ok rows
                 /\ map (fun row => fst (fst row)) rows = labels
                 /\ map (fun row => snd (fst row)) rows
                    = map (fun k => (reindex std k * reindex ranks k)%float)
                        predictive_features
                 /\ map (fun row => snd row) rows
                    = map (fun k => (reindex top_std k * reindex ranks k)%float)
                        predictive_features).
  { unfold building_suggestions_graph.
    pose proof (top_project_std_outcome scaler q df) as Htop.
    destruct (top_project_std scaler q df) as [top_std|e];
      [|subst e; now left].
    pose proof (feature_vector_std_outcome scaler meta_features) as Hstd.
    destruct (feature_vector_std scaler meta_features) as [std|e];
      [|subst e; now left].
    pose proof (pd_Series_outcome
                  (firstn (List.length features) (ravel (transpose coef_)))
                  features) as Hranks.
    fold (feature_ranks coef_) in Hranks.
    destruct (feature_ranks coef_) as [ranks|e]; [|subst e; now left].
    unfold bind. right. exists top_std, std, ranks.
    rewrite (suggestions_over_features std top_std ranks Hstd Htop Hranks).
    eexists. repeat (split; [reflexivity|]). reflexivity. }
  split; [exact Hout|]. split.
  - intro Hbad.
    destruct Hout as [E|(top_std & std & ranks & rows & Htop & Hstd & Hranks & _)];
      [exact E | exfalso].
    destruct Hbad as [Hq|[Hinf|[Hlen|Hcoef]]].
    + apply Hq. apply check_percentile_iff.
      unfold top_project_std in Htop.
      rewrite avg_top_projects_of_top in Htop.
      unfold top_projects, quantile_limit, quantile in Htop.
      now destruct (check_percentile q).
    + unfold feature_vector_std, scaler_transform in Hstd.
      simpl existsb in Hstd. rewrite Hinf in Hstd. discriminate.
    + unfold feature_vector_std, scaler_transform in Hstd.
      simpl existsb in Hstd. simpl forallb in Hstd.
      destruct (existsb isinf meta_features); [discriminate|].
      rewrite andb_true_r in Hstd.
      destruct (Nat.eqb (List.length meta_features)
                  (List.length (mean_ scaler))) eqn:E1; [|discriminate].
      destruct (Nat.eqb (List.length (scale_ scaler))
                  (List.length (mean_ scaler))) eqn:E2; [|discriminate].
      apply Nat.eqb_eq in E1, E2. cbn [andb orb map bind] in Hstd.
      rewrite ravel_single, pd_Series_Err in Hstd; [discriminate|].
      rewrite standardize_row_length; congruence.
    + unfold feature_ranks in Hranks.
      rewrite pd_Series_Err in Hranks; [discriminate|].
      rewrite length_firstn. lia.
  - intros Hq Hm Hs (avg & Havg & Hfin) Hmf Hmfin Hcoef.
    assert (Hidx : index avg = features).
    { rewrite avg_top_projects_of_top in Havg.
      destruct (top_projects q df); [|discriminate].
      injection Havg as <-. apply index_DataFrame_mean. }
    assert (Hlen : List.length (values avg) = List.length features).
    { unfold values. rewrite length_map, <- Hidx. unfold index.
      now rewrite length_map. }
    assert (Htop : top_project_std scaler q df
                   = Ok (combine features
                           (standardize_row (values avg) (mean_ scaler)
                              (scale_ scaler)))).
    { unfold top_project_std. rewrite Havg. unfold bind.
      rewrite scaler_transform_row;
        [|now apply existsb_isinf_finite | congruence | congruence].
      rewrite ravel_single. apply pd_Series_Ok.
      rewrite standardize_row_length; congruence. }
    assert (Hranks : feature_ranks coef_
                     = Ok (combine features
                             (firstn (List.length features)
                                (ravel (transpose coef_))))).
    { unfold feature_ranks. apply pd_Series_Ok. rewrite length_firstn. lia. }
    unfold building_suggestions_graph.
    rewrite Htop, Hranks.
    rewrite (feature_vector_std_explicit scaler meta_features Hm Hs Hmf
               (existsb_isinf_finite _ Hmfin)).
    unfold bind.
    rewrite suggestions_over_features;
      [now eexists | | |];
      apply index_combine;
      [ rewrite standardize_row_length; congruence
      | rewrite standardize_row_length; congruence
      | rewrite length_firstn; lia ].
Qed.

Lemma building_suggestions_graph_outcome_witness :
  building_suggestions_graph Examples.demo_scaler [demo_coef] q95 cohort1
    [of_Z 3; of_Z 4]
  = Err ValueError
  /\ exists rows : list (string * float64 * float64),
       building_suggestions_graph Examples.demo_scaler [demo_coef] q95 cohort1
         Examples.demo_meta_features = Ok rows.
Proof.
  split.
  - apply (proj1 (proj2 (building_suggestions_graph_outcome
                           Examples.demo_scaler [demo_coef] q95 cohort1
                           [of_Z 3; of_Z 4]))).
    right. right. left. discriminate.
  - apply (proj2 (proj2 (building_suggestions_graph_outcome
                           Examples.demo_scaler [demo_coef] q95 cohort1
                           Examples.demo_meta_features)));
      try first [reflexivity | (split; discriminate) | (simpl; lia)].
    eexists. split; reflexivity.
Defined.

(** ** The sign of a weighted score *)

Lemma sgn_sub (x m : Qc) : sgn (x - m)%Qc = (x ?= m)%Qc.
Proof.
  unfold sgn. destruct (x ?= m)%Qc eqn:E.
  - apply Qceq_alt in E. subst. replace (m - m)%Qc with 0%Qc by ring.
    reflexivity.
  - apply Qclt_alt in E. apply Qclt_alt, Qclt_minus_iff.
    replace (0 + - (x - m))%Qc with (m + - x)%Qc by ring.
    exact (proj1 (Qclt_minus_iff x m) E).
  - apply Qcgt_alt in E. apply Qcgt_alt. unfold Qcminus.
    exact (proj1 (Qclt_minus_iff m x) E).
Qed.

Lemma sgn_standardized (x m s c : Qc) :
  (0 < s)%Qc ->
  sgn ((x - m) / s * c)%Qc = comp_mul (x ?= m)%Qc (sgn c).
Proof.
  intro Hs.
  assert (Hne : s <> 0%Qc).
  { intros ->. now apply Qclt_alt in Hs. }
  assert (Hsgn : sgn s = Gt) by (unfold sgn; now apply Qcgt_alt).
  assert (E : ((x - m) / s * c * s)%Qc = ((x - m) * c)%Qc) by (field; exact Hne).
  assert (H := sgn_mul ((x - m) / s * c) s).
  rewrite E, Hsgn, sgn_mul, sgn_sub in H.
  rewrite H. now destruct (sgn ((x - m) / s * c)%Qc).
Qed.

Lemma get_map_key (f : string -> float64) (keys : list string) (k : string) :
  In k keys -> get (map (fun k => (k, f k)) keys) k = Some (f k).
Proof.
  induction keys as [|k' keys IH]; [contradiction|].
  simpl. destruct (String.eqb_spec k' k) as [->|Hne]; [reflexivity|].
  intros [E|Hin]; [now elim Hne | now apply IH].
Qed.

Lemma reindex_combine_nth (ks : list string) (vs : list float64) (j : nat) :
  is_unique ks = true ->
  List.length vs = List.length ks ->
  (j < List.length ks)%nat ->
  reindex (combine ks vs) (nth j ks "") = nth j vs NaN.
Proof.
  intros Hu Hlen Hj. unfold reindex.
  now rewrite (get_combine_nth ks vs j Hu Hlen Hj).
Qed.

(** X14.  A weighted score never has the wrong sign: for the j-th meta
    feature, with a finite raw value [x], fitted mean [m], fitted scale
    [s > 0] and finite coefficient [c], the score of the project is not
    below 0 when the project is above the training mean on a feature of
    positive weight or below it on a feature of negative weight, it is
    not above 0 in the two opposite cases, and it is 0 when the project is
    at the mean. *)
Theorem user_project_score_sign (scaler : StandardScaler)
    (w meta_features : list float64) (subset : list string)
    (j : nat) (x m s c : Qc) :
  List.length (mean_ scaler) = List.length features ->
  List.length (scale_ scaler) = List.length features ->
  List.length meta_features = List.length features ->
  forallb isfinite meta_features = true ->
  (List.length features <= List.length w)%nat ->
  forallb (fun k => existsb (String.eqb k) features) subset = true ->
  (j < List.length features)%nat ->
  In (nth j features "") subset ->
  nth j meta_features NaN = Fin x ->
  nth j (mean_ scaler) NaN = Fin m ->
  nth j (scale_ scaler) NaN = Fin s ->
  nth j w NaN = Fin c ->
  (0 < s)%Qc ->
  exists (std ranks score : Series) (v : float64),
    feature_vector_std scaler meta_features = Ok std
    /\ feature_ranks [w] = Ok ranks
    /\ user_project_score std ranks subset = Ok score
    /\ get score (nth j features "") = Some v
    /\ (((m < x)%Qc /\ (0 < c)%Qc) \/ ((x < m)%Qc /\ (c < 0)%Qc) ->
        (v >=? zero)%float = true)
    /\ (((m < x)%Qc /\ (c < 0)%Qc) \/ ((x < m)%Qc /\ (0 < c)%Qc) ->
        (zero >=? v)%float = true)
    /\ (x = m -> (v ==? zero)%float = true).
Proof.
  intros Hm Hs Hmf Hfin Hw Hsub Hj Hin Hx Hmj Hsj Hc Hpos.
  assert (Hinf := existsb_isinf_finite _ Hfin).
  assert (Hz : List.length (standardize_row meta_features (mean_ scaler)
                              (scale_ scaler))
               = List.length features)
    by (rewrite standardize_row_length; congruence).
  assert (Hfirst : List.length (firstn (List.length features) w)
                   = List.length features)
    by (rewrite length_firstn; lia).
  set (std := combine features
                (standardize_row meta_features (mean_ scaler) (scale_ scaler))).
  set (ranks := combine features (firstn (List.length features) w)).
  assert (Hstd : feature_vector_std scaler meta_features = Ok std).
  { unfold feature_vector_std.
    rewrite scaler_transform_row by congruence.
    unfold bind. rewrite ravel_single. now apply pd_Series_Ok. }
  assert (Hranks : feature_ranks [w] = Ok ranks).
  { unfold feature_ranks. rewrite ravel_transpose_row.
    now apply pd_Series_Ok. }
  assert (Hstd_idx : index std = features) by now apply index_combine.
  assert (Hranks_idx : index ranks = features) by now apply index_combine.
  assert (Hcover : forallb (fun k => has_label std k && has_label ranks k)
                     subset = true).
  { apply forallb_forall. intros k Hk.
    rewrite forallb_forall in Hsub. specialize (Hsub k Hk).
    now rewrite !has_label_features. }
  assert (Hscore := user_project_score_covered std ranks subset
                      ltac:(now rewrite Hstd_idx)
                      ltac:(now rewrite Hranks_idx) Hcover).
  assert (Hne : s <> 0%Qc).
  { intros ->. now apply Qclt_alt in Hpos. }
  exists std, ranks. eexists. exists (Fin ((x - m) / s * c)%Qc).
  split; [exact Hstd|]. split; [exact Hranks|]. split; [exact Hscore|].
  assert (Hv := sgn_standardized x m s c Hpos). unfold sgn in Hv.
  assert (Hgt : forall a b : Qc, (a < b)%Qc <-> (b ?= a)%Qc = Gt)
    by (intros a b; exact (Qcgt_alt b a)).
  assert (Hc0 : (0 ?= c)%Qc = CompOpp (c ?= 0)%Qc).
  { unfold Qccompare. now rewrite Qcompare_antisym. }
  assert (Hv0 : (0 ?= (x - m) / s * c)%Qc
                = CompOpp (comp_mul (x ?= m)%Qc (c ?= 0)%Qc)).
  { rewrite <- Hv. unfold Qccompare. now rewrite Qcompare_antisym. }
  split; [|split; [|split]].
  - rewrite (get_map_key (fun k => (reindex std k * reindex ranks k)%float)
               subset _ Hin).
    f_equal. unfold std, ranks.
    rewrite !reindex_combine_nth; trivial.
    rewrite standardize_row_nth by congruence.
    rewrite nth_firstn_lt by assumption.
    rewrite Hx, Hmj, Hsj, Hc.
    unfold standardize, Float.sub, Float.neg, Float.add, Float.div, Float.mul.
    destruct (Qc_eq_dec s 0) as [E|_]; [now elim Hne | reflexivity].
  - unfold geb, zero, leb. rewrite Hv0.
    rewrite (Qclt_alt c 0), (Qclt_alt x m), (Hgt 0%Qc c), (Hgt m x).
    intros [[H1 H2]|[H1 H2]]; now rewrite H1, H2.
  - unfold geb, zero, leb. rewrite Hv.
    rewrite (Qclt_alt c 0), (Qclt_alt x m), (Hgt 0%Qc c), (Hgt m x).
    intros [[H1 H2]|[H1 H2]]; now rewrite H1, H2.
  - intros ->. unfold eqb, zero.
    destruct (Qc_eq_dec ((m - m) / s * c) 0) as [_|E]; [reflexivity|].
    elim E. field. exact Hne.
Qed.

Lemma user_project_score_sign_witness :
  exists (std ranks score : Series) (v : float64),
    feature_vector_std Examples.demo_scaler Examples.demo_meta_features = Ok std
    /\ feature_ranks [demo_coef] = Ok ranks
    /\ user_project_score std ranks predictive_features = Ok score
    /\ get score (nth 12 features "") = Some v
    /\ (((Q2Qc 1 < Q2Qc 3)%Qc /\ (0 < Q2Qc 1)%Qc)
        \/ ((Q2Qc 3 < Q2Qc 1)%Qc /\ (Q2Qc 1 < 0)%Qc) ->
        (v >=? zero)%float = true)
    /\ (((Q2Qc 1 < Q2Qc 3)%Qc /\ (Q2Qc 1 < 0)%Qc)
        \/ ((Q2Qc 3 < Q2Qc 1)%Qc /\ (0 < Q2Qc 1)%Qc) ->
        (zero >=? v)%float = true)
    /\ (Q2Qc 3 = Q2Qc 1 -> (v ==? zero)%float = true).
Proof.
  apply (user_project_score_sign Examples.demo_scaler demo_coef
           Examples.demo_meta_features predictive_features 12
           (Q2Qc 3) (Q2Qc 1) (Q2Qc 2) (Q2Qc 1));
    first [reflexivity | (simpl; lia) | (simpl; tauto)].
Defined.

(** ** What the suggestions do not depend on *)

(** X15.  The coefficients of the n-grams play no part: two classifiers
    whose single coefficient rows agree on the first 19 entries give the
    same ranks and the same outcome of the whole notebook, whatever the
    other coefficients are. *)
Theorem ngram_coefficients_unused (scaler : StandardScaler)
    (w w' : list float64) (q : Qc) (df : list Row)
    (meta_features : list float64) :
  firstn (List.length features) w = firstn (List.length features) w' ->
  feature_ranks [w] = feature_ranks [w']
  /\ building_suggestions_graph scaler [w] q df meta_features
     = building_suggestions_graph scaler [w'] q df meta_features.
Proof.
  intro H.
  assert (Hr : feature_ranks [w] = feature_ranks [w'])
    by now rewrite !feature_ranks_row, H.
  split; [exact Hr|].
  unfold building_suggestions_graph. now rewrite Hr.
Qed.

Lemma ngram_coefficients_unused_witness :
  feature_ranks [demo_coef] = feature_ranks [values demo_ranks]
  /\ building_suggestions_graph Examples.demo_scaler [demo_coef] q95 cohort1
       Examples.demo_meta_features
     = building_suggestions_graph Examples.demo_scaler [values demo_ranks] q95
         cohort1 Examples.demo_meta_features.
Proof.
  apply (ngram_coefficients_unused Examples.demo_scaler demo_coef
           (values demo_ranks) q95 cohort1 Examples.demo_meta_features).
  reflexivity.
Defined.

Lemma In_features_nth (k : string) :
  In k features ->
  exists j : nat, (j < List.length features)%nat /\ nth j features "" = k.
Proof. intro H. now apply In_nth. Qed.

Lemma reindex_standardized (mf means scales : list float64) (k : string) :
  List.length mf = List.length features ->
  List.length means = List.length features ->
  List.length scales = List.length features ->
  In k features ->
  reindex (combine features (standardize_row mf means scales)) k
  = standardize (reindex (combine features mf) k)
      (reindex (combine features means) k)
      (reindex (combine features scales) k).
Proof.
  intros Hmf Hm Hs Hk.
  destruct (In_features_nth k Hk) as (j & Hj & <-).
  rewrite !reindex_combine_nth; trivial.
  - apply standardize_row_nth; congruence.
  - rewrite standardize_row_length; congruence.
Qed.

(** X16.  Only the predictive features of the project matter: two
    projects whose raw meta features agree on the six predictive
    features get the same plot, whatever their other 13 meta features
    are. *)
Theorem other_meta_features_unused (scaler : StandardScaler)
    (w : list float64) (q : Qc) (df : list Row)
    (meta_features meta_features' : list float64) :
  (0 <= q)%Qc -> (q <= 1)%Qc ->
  table_with_data df = true ->
  fitted_on_features scaler = true ->
  List.length meta_features = List.length features ->
  List.length meta_features' = List.length features ->
  forallb isfinite meta_features = true ->
  forallb isfinite meta_features' = true ->
  (List.length features <= List.length w)%nat ->
  forallb isfinite (firstn (List.length features) w) = true ->
  (forall k : string,
      In k predictive_features ->
      reindex (combine features meta_features) k
      = reindex (combine features meta_features') k) ->
  building_suggestions_graph scaler [w] q df meta_features
  = building_suggestions_graph scaler [w] q df meta_features'.
Proof.
  intros Hq0 Hq1 Htable Hscaler Hmf Hmf' Hfin Hfin' Hw Hwfin Hagree.
  destruct (fitted_on_features_spec scaler Hscaler) as (Hm & Hs & _ & _).
  unfold building_suggestions_graph.
  pose proof (top_project_std_outcome scaler q df) as Htop.
  destruct (top_project_std scaler q df) as [top_std|e]; [|reflexivity].
  rewrite (feature_vector_std_explicit scaler meta_features Hm Hs Hmf
             (existsb_isinf_finite _ Hfin)).
  rewrite (feature_vector_std_explicit scaler meta_features' Hm Hs Hmf'
             (existsb_isinf_finite _ Hfin')).
  pose proof (pd_Series_outcome (firstn (List.length features) w) features)
    as Hranks.
  rewrite <- feature_ranks_row in Hranks.
  destruct (feature_ranks [w]) as [ranks|e]; [|reflexivity].
  unfold bind.
  rewrite !suggestions_over_features; trivial;
    try (apply index_combine; rewrite standardize_row_length; congruence).
  f_equal. apply map_ext_in. intros [lab k] Hlk. cbn [fst snd].
  assert (Hk : In k predictive_features) by (apply in_combine_r in Hlk; exact Hlk).
  assert (Hkf : In k features) by now apply predictive_features_In.
  rewrite !reindex_standardized by assumption.
  now rewrite (Hagree k Hk).
Qed.

Lemma other_meta_features_unused_witness :
  building_suggestions_graph Examples.demo_scaler [demo_coef] q95 cohort1
    Examples.demo_meta_features
  = building_suggestions_graph Examples.demo_scaler [demo_coef] q95 cohort1
      (of_Z 9 :: tl Examples.demo_meta_features).
Proof.
  apply (other_meta_features_unused Examples.demo_scaler demo_coef q95 cohort1
           Examples.demo_meta_features
           (of_Z 9 :: tl Examples.demo_meta_features));
    try first [discriminate | reflexivity | (simpl; lia)].
  intros k Hk. simpl in Hk.
  repeat (destruct Hk as [<-|Hk]; [reflexivity|]). contradiction.
Defined.

(** ** A threshold that is no number *)

Lemma filter_none {A : Type} (f : A -> bool) (l : list A) :
  (forall a : A, f a = false) -> filter f l = [].
Proof.
  intro H. induction l as [|a l IH]; [reflexivity|].
  simpl. now rewrite (H a).
Qed.

Lemma geb_NaN_r (x : float64) : (x >=? NaN)%float = false.
Proof. now destruct x. Qed.

(** X17.  When the quantile threshold is missing (NaN), no project at
    all reaches it: the selection is empty and the average top project is
    the vector of 19 missing values.  This is what a single project with
    goal 0 does to a small table at the quantile of the notebook: its
    infinite ratio is the upper neighbour of the quantile position, and
    the interpolation between a number and [+inf] is NaN. *)
Theorem nan_threshold_selects_nothing (q : Qc) (df : list Row) :
  quantile_limit q df = Ok NaN ->
  top_projects q df = Ok []
  /\ X_cleaned q df = Ok []
  /\ avg_top_projects q df = Ok all_nan.
Proof.
  intro H.
  assert (Htop : top_projects q df = Ok []).
  { unfold top_projects. rewrite H. simpl. f_equal.
    apply filter_none. intro r. exact (geb_NaN_r (percent_funded_of r)). }
  assert (Hx : X_cleaned q df = Ok []).
  { unfold X_cleaned, X_nonnull, X. now rewrite Htop. }
  split; [exact Htop|]. split; [exact Hx|].
  unfold avg_top_projects. now rewrite Hx.
Qed.

Lemma nan_threshold_selects_nothing_witness :
  top_projects q95 cohort_zero_goal = Ok []
  /\ X_cleaned q95 cohort_zero_goal = Ok []
  /\ avg_top_projects q95 cohort_zero_goal = Ok all_nan.
Proof.
  apply (nan_threshold_selects_nothing q95 cohort_zero_goal).
  reflexivity.
Defined.
